(** * Library management system: lending, inventory and fines

    A shallow embedding of the Flask application: the SQLAlchemy tables of
    [models.py] as finite maps from primary key to row, every request handler
    that commits to the database as a function from the database to an
    outcome and a new database, and the read-only fine views.

    Dates are whole days (the [db.Date] columns of [BorrowRecord] store a
    calendar day); every reading of the clock a handler makes is an explicit
    argument, one argument per reading.  Form values are ASCII strings, and
    a numeric form field is given as the result of [int] on it.  Column
    widths and the collation of the database are not part of the model. *)

From Stdlib Require Import ZArith Floats Ascii String.
From stdpp Require Import gmap strings list fin_maps.

Local Open Scope Z_scope.

(** ** models.py *)

Module Role.
Definition ADMIN : string := "admin".
Definition TEACHER : string := "teacher".
Definition STUDENT : string := "student".
End Role.

(** [users]: the primary key is the key of the table map. *)
Record User := {
  username : string;
  email : string;
  password_hash : string;
  role : string;
  created_at : Z
}.

(** [books]. [isbn], [title] and [cover_url] are nullable columns. *)
Record Book := {
  isbn : option string;
  title : option string;
  author : string;
  publisher : string;
  year : Z;
  rating : Z;
  copies_total : Z;
  copies_available : Z;
  category : string;
  description : string;
  cover_url : option string
}.

(** [borrow_records]. The three dates are nullable [db.Date] columns,
    [fine] is the [db.Float] column with default [0.0]. *)
Record BorrowRecord := {
  user_id : Z;
  book_id : Z;
  borrow_date : option Z;
  due_date : option Z;
  return_date : option Z;
  returned : bool;
  fine : float
}.

(** [book_recommendations]. *)
Record BookRecommendation := {
  rec_user_id : Z;
  rec_title : string;
  rec_author : string;
  rec_reason : string;
  rec_status : string;
  rec_date : Z
}.

(** The database: one finite map per table. *)
Record db := {
  users : gmap Z User;
  books : gmap Z Book;
  borrow_records : gmap Z BorrowRecord;
  book_recommendations : gmap Z BookRecommendation
}.

(** The database [init_db.py] creates: every table empty. *)
Definition init_db : db :=
  {| users := ∅; books := ∅; borrow_records := ∅; book_recommendations := ∅ |}.

(** Primary key of an inserted row: one more than the largest key in use. *)
Definition next_id {A} (m : gmap Z A) : Z :=
  1 + foldr Z.max 0 (map_to_list m).*1.

(** Attribute assignments on a loaded row, and table replacement. *)
Definition with_copies_available (v : Z) (b : Book) : Book :=
  {| isbn := isbn b; title := title b; author := author b;
     publisher := publisher b; year := year b; rating := rating b;
     copies_total := copies_total b; copies_available := v;
     category := category b; description := description b;
     cover_url := cover_url b |}.

Definition mark_returned (d : Z) (r : BorrowRecord) : BorrowRecord :=
  {| user_id := user_id r; book_id := book_id r;
     borrow_date := borrow_date r; due_date := due_date r;
     return_date := Some d; returned := true; fine := fine r |}.

Definition with_books (bs : gmap Z Book) (s : db) : db :=
  {| users := users s; books := bs; borrow_records := borrow_records s;
     book_recommendations := book_recommendations s |}.

Definition with_borrow_records (rs : gmap Z BorrowRecord) (s : db) : db :=
  {| users := users s; books := books s; borrow_records := rs;
     book_recommendations := book_recommendations s |}.

Definition with_users (us : gmap Z User) (s : db) : db :=
  {| users := us; books := books s; borrow_records := borrow_records s;
     book_recommendations := book_recommendations s |}.

Definition with_book_recommendations (rs : gmap Z BookRecommendation) (s : db) : db :=
  {| users := users s; books := books s; borrow_records := borrow_records s;
     book_recommendations := rs |}.

(** What a handler answers.  The names of the lending outcomes are the
    spec's; the flash message of the source is given with each. *)
Inductive outcome :=
| Success          (* committed, success flash *)
| NotFound         (* get_or_404 aborted the request *)
| OutOfStock       (* 'Book not available for borrowing!', 'This book is currently unavailable!' *)
| AlreadyBorrowed  (* 'You already borrowed this book!' *)
| Unauthorized     (* 'Unauthorized return attempt!', 'Unauthorized action.' *)
| AlreadyReturned  (* 'Book already returned!' *)
| AccessDenied     (* login_required called the unauthorized handler (redirect to the
                      index page), or a role decorator redirected to the login page *)
| Rejected         (* any other validation flash; nothing committed *)
| ServerError.     (* uncaught exception: the session is rolled back *)

(** [BorrowRecord.query.filter_by(user_id=.., book_id=.., returned=False)] *)
Definition active_loans (uid bid : Z) (rs : gmap Z BorrowRecord) : gmap Z BorrowRecord :=
  filter (λ kr, user_id kr.2 = uid ∧ book_id kr.2 = bid ∧ returned kr.2 = false) rs.

(** [.first()] *)
Definition first {A} (m : gmap Z A) : option (Z * A) := head (map_to_list m).

(** [BorrowRecord.query.filter_by(user_id=current_user.id).all()] *)
Definition records_of (uid : Z) (rs : gmap Z BorrowRecord) : list BorrowRecord :=
  (map_to_list (filter (λ kr, user_id kr.2 = uid) rs)).*2.

(** The row a borrow handler adds. *)
Definition new_loan (uid bid borrowed due : Z) : BorrowRecord :=
  {| user_id := uid; book_id := bid; borrow_date := Some borrowed;
     due_date := Some due; return_date := None; returned := false;
     fine := 0%float |}.

(** ** Request plumbing shared by the blueprints *)

(** [str.strip()] and [str.lower()] on ASCII text. *)
Definition is_space (c : ascii) : bool :=
  let n := nat_of_ascii c in
  bool_decide (n = 32 ∨ (9 ≤ n ∧ n ≤ 13) ∨ (28 ≤ n ∧ n ≤ 31))%nat.

Fixpoint lstrip (s : string) : string :=
  match s with
  | String c s' => if is_space c then lstrip s' else s
  | EmptyString => EmptyString
  end.

Definition strip (s : string) : string :=
  String.rev (lstrip (String.rev (lstrip s))).

Definition lower_char (c : ascii) : ascii :=
  let n := nat_of_ascii c in
  if bool_decide (65 ≤ n ∧ n ≤ 90)%nat then ascii_of_nat (n + 32) else c.

Fixpoint lower (s : string) : string :=
  match s with
  | String c s' => String (lower_char c) (lower s')
  | EmptyString => EmptyString
  end.

(** [k in t] on strings. *)
Fixpoint contains (k t : string) : bool :=
  String.prefix k t
  || match t with
     | String _ t' => contains k t'
     | EmptyString => false
     end.

(** [s.rsplit(".", 1)]: the text split at its last dot, or the text alone. *)
Fixpoint rsplit1 (s : string) : list string :=
  match s with
  | EmptyString => [EmptyString]
  | String c s' =>
    match rsplit1 s' with
    | [h; t] => [String c h; t]
    | _ => if decide (c = "."%char) then [EmptyString; s'] else [String c s']
    end
  end.

(** [current_user] is the id kept in the session, if any; the user loader
    fetches the row, and a session without a row is anonymous.
    [login_required] followed by a role decorator lets the view run only for
    a logged-in user of role [r]. *)
Definition role_required (r : string) (current_user : option Z)
    (view : Z → db → outcome * db) (s : db) : outcome * db :=
  match current_user with
  | None => (AccessDenied, s)
  | Some uid =>
    match users s !! uid with
    | None => (AccessDenied, s)
    | Some u => if decide (role u = r) then view uid s else (AccessDenied, s)
    end
  end.

(** [login_required] alone. *)
Definition login_required (current_user : option Z)
    (view : Z → db → outcome * db) (s : db) : outcome * db :=
  match current_user with
  | None => (AccessDenied, s)
  | Some uid =>
    match users s !! uid with
    | None => (AccessDenied, s)
    | Some _ => view uid s
    end
  end.

(** Unique constraints of [users]: [username] and [email]. *)
Definition user_clash (u u' : User) : Prop :=
  username u = username u' ∨ email u = email u'.

(** Unique constraints of [books]: [isbn], [title], and the five columns of
    [unique_book_details]; a NULL never clashes. *)
Definition book_clash (b b' : Book) : Prop :=
  (isbn b ≠ None ∧ isbn b = isbn b')
  ∨ (title b ≠ None ∧ title b = title b')
  ∨ (title b ≠ None ∧ title b = title b' ∧ author b = author b'
     ∧ publisher b = publisher b' ∧ year b = year b' ∧ category b = category b').

(** The fields of the book form as the handlers read them. *)
Record BookForm := {
  form_isbn : string;               (* request.form.get("isbn"), empty when absent *)
  form_title : string;
  form_author : string;
  form_publisher : string;
  form_year : option Z;             (* int(request.form["year"]); None: ValueError *)
  form_copies_total : option Z;     (* int(request.form["copies_total"]); None: ValueError *)
  form_category : string;
  form_description : string;
  form_rating : option Z;           (* int(rating) if rating else 0; None: ValueError *)
  form_cover : option string        (* secure_filename of an upload allowed_file accepts *)
}.

(** [request.form.get("isbn") or None] *)
Definition isbn_or_None (s : string) : option string :=
  if decide (s = "") then None else Some s.

(** The cover logic of [add_book] and [edit_book]: an accepted upload, else
    the Open Library cover of the ISBN, else the value at hand. *)
Definition cover_logic (upload isbn0 current : option string) : option string :=
  match upload, isbn0 with
  | Some filename, _ => Some ("/static/uploads/" +:+ filename)
  | None, Some i =>
    Some ("https://covers.openlibrary.org/b/isbn/" +:+ i +:+ "-L.jpg?default=false")
  | None, None => current
  end.

(** The row both recommendation forms add; [status] takes its default. *)
Definition new_recommendation (uid : Z) (title0 author0 reason0 : string) (now : Z)
    : BookRecommendation :=
  {| rec_user_id := uid; rec_title := title0; rec_author := author0;
     rec_reason := reason0; rec_status := "pending"; rec_date := now |}.

(** ** config.py *)

Definition ALLOWED_EXTENSIONS : list string := ["png"; "jpg"; "jpeg"; "webp"].

(** ** blueprints/auth.py *)

Module auth.

(** [register] (POST).  [hashed_password] is what [generate_password_hash]
    returned, [now] the default of [created_at]. *)
Definition register (form_username form_email password form_role hashed_password : string)
    (now : Z) (s : db) : outcome * db :=
  let username0 := strip form_username in
  let email0 := strip form_email in
  let role0 := lower form_role in
  if decide (username0 = "" ∨ email0 = "" ∨ password = "") then (Rejected, s)
  else
    let role1 :=
      if decide (role0 ∈ [Role.ADMIN; Role.TEACHER; Role.STUDENT])
      then role0 else Role.STUDENT in
    if decide (map_Exists (λ _ u, username u = username0 ∨ email u = email0) (users s))
    then (Rejected, s)
    else
      let new_user :=
        {| username := username0; email := email0;
           password_hash := hashed_password; role := role1; created_at := now |} in
      (Success, with_users (<[next_id (users s) := new_user]> (users s)) s).

End auth.

(** ** blueprints/admin.py *)

Module admin.

(** [allowed_file]: the [and] guards the index into the split. *)
Definition allowed_file (filename : string) : bool :=
  contains "." filename
  && match rsplit1 filename !! 1%nat with
     | Some ext => bool_decide (lower ext ∈ ALLOWED_EXTENSIONS)
     | None => false
     end.

Definition update_recommendation_status (rec_id : Z) (action : string)
    (s : db) : outcome * db :=
  match book_recommendations s !! rec_id with
  | None => (NotFound, s)
  | Some rec =>
    if decide (action ∈ ["approved"; "rejected"]) then
      let rec' :=
        {| rec_user_id := rec_user_id rec; rec_title := rec_title rec;
           rec_author := rec_author rec; rec_reason := rec_reason rec;
           rec_status := action; rec_date := rec_date rec |} in
      (Success,
       with_book_recommendations (<[rec_id := rec']> (book_recommendations s)) s)
    else (Rejected, s)
  end.

(** [add_book] (POST): a [ValueError] of [int] and the [IntegrityError] of
    the commit are both caught and flashed. *)
Definition add_book (form : BookForm) (s : db) : outcome * db :=
  match form_year form, form_copies_total form, form_rating form with
  | Some year0, Some copies_total0, Some rating0 =>
    let isbn0 := isbn_or_None (form_isbn form) in
    let book :=
      {| isbn := isbn0; title := Some (strip (form_title form));
         author := strip (form_author form);
         publisher := strip (form_publisher form);
         year := year0; rating := rating0;
         copies_total := copies_total0; copies_available := copies_total0;
         category := strip (form_category form);
         description := substring 0 500 (form_description form);
         cover_url := cover_logic (form_cover form) isbn0 None |} in
    if decide (map_Exists (λ _ b', book_clash book b') (books s))
    then (Rejected, s)
    else (Success, with_books (<[next_id (books s) := book]> (books s)) s)
  | _, _, _ => (Rejected, s)
  end.

(** [edit_book] (POST): nothing is caught here, so a [ValueError] or an
    [IntegrityError] ends the request without a commit. *)
Definition edit_book (book_id : Z) (form : BookForm) (s : db) : outcome * db :=
  match books s !! book_id with
  | None => (NotFound, s)
  | Some book =>
    match form_year form, form_rating form, form_copies_total form with
    | Some year0, Some rating0, Some new_total =>
      let isbn0 := isbn_or_None (form_isbn form) in
      let borrowed := copies_total book - copies_available book in
      let book' :=
        {| isbn := isbn0; title := Some (form_title form);
           author := form_author form; publisher := form_publisher form;
           year := year0; rating := rating0;
           copies_total := new_total;
           copies_available := Z.max (new_total - borrowed) 0;
           category := form_category form;
           description := form_description form;
           cover_url := cover_logic (form_cover form) isbn0 (cover_url book) |} in
      if decide (map_Exists (λ _ b', book_clash book' b') (delete book_id (books s)))
      then (ServerError, s)
      else (Success, with_books (<[book_id := book']> (books s)) s)
    | _, _, _ => (ServerError, s)
    end
  end.

(** [delete_book]: refused while an unreturned loan names the book.  The
    [transactions] relationship has no delete cascade, so deleting a book
    that returned loans still name would null their NOT NULL [book_id]: the
    commit raises. *)
Definition delete_book (id : Z) (s : db) : outcome * db :=
  match books s !! id with
  | None => (NotFound, s)
  | Some book =>
    if decide (map_Exists (λ _ r, book_id r = id ∧ returned r = false) (borrow_records s))
    then (Rejected, s)
    else if decide (map_Exists (λ _ r, book_id r = id) (borrow_records s))
    then (ServerError, s)
    else (Success, with_books (delete id (books s)) s)
  end.

(** [add_user] (POST): the lookup compares the form values as typed, the
    row keeps them stripped; a clash the lookup missed fails the commit. *)
Definition add_user (form_username form_email form_role hashed_password : string)
    (now : Z) (s : db) : outcome * db :=
  if decide (map_Exists (λ _ u, username u = form_username ∨ email u = form_email) (users s))
  then (Rejected, s)
  else
    let user :=
      {| username := strip form_username; email := strip form_email;
         password_hash := hashed_password; role := form_role; created_at := now |} in
    if decide (map_Exists (λ _ u', user_clash user u') (users s))
    then (ServerError, s)
    else (Success, with_users (<[next_id (users s) := user]> (users s)) s).

(** [delete_user]: an admin is never deleted; as for books, rows that
    still name the user make the commit raise. *)
Definition delete_user (id : Z) (s : db) : outcome * db :=
  match users s !! id with
  | None => (NotFound, s)
  | Some user =>
    if decide (role user = Role.ADMIN) then (Rejected, s)
    else if decide (map_Exists (λ _ r, user_id r = id) (borrow_records s)
                    ∨ map_Exists (λ _ r, rec_user_id r = id) (book_recommendations s))
    then (ServerError, s)
    else (Success, with_users (delete id (users s)) s)
  end.

End admin.

(** ** blueprints/teacher.py *)

Module teacher.

(** [borrow_book] reads [datetime.utcnow()] twice, once for [borrow_date]
    and once for [due_date]; [now1] and [now2] are the days the two
    [db.Date] columns keep of the two readings. *)
Definition borrow_book (current_user_id book_id now1 now2 : Z) (s : db) : outcome * db :=
  match books s !! book_id with
  | None => (NotFound, s)
  | Some book =>
    if decide (copies_available book <= 0) then (OutOfStock, s)
    else match first (active_loans current_user_id book_id (borrow_records s)) with
         | Some _ => (AlreadyBorrowed, s)
         | None =>
           let borrow := new_loan current_user_id book_id now1 (now2 + 14) in
           (Success,
            with_borrow_records
              (<[next_id (borrow_records s) := borrow]> (borrow_records s))
              (with_books
                 (<[book_id := with_copies_available (copies_available book - 1) book]>
                    (books s)) s))
         end
  end.

(** [return_book]: ownership is the only check before the row is marked. *)
Definition return_book (current_user_id record_id now : Z) (s : db) : outcome * db :=
  match borrow_records s !! record_id with
  | None => (NotFound, s)
  | Some record =>
    if decide (user_id record ≠ current_user_id) then (Unauthorized, s)
    else match books s !! book_id record with
         | None => (ServerError, s)
         | Some book =>
           (Success,
            with_borrow_records
              (<[record_id := mark_returned now record]> (borrow_records s))
              (with_books
                 (<[book_id record := with_copies_available (copies_available book + 1) book]>
                    (books s)) s))
         end
  end.

(** [recommend_book] (POST): [now] is the reading [datetime.utcnow()]. *)
Definition recommend_book (current_user_id : Z)
    (form_title0 form_author0 form_reason : string) (now : Z) (s : db) : outcome * db :=
  let title0 := strip form_title0 in
  let author0 := strip form_author0 in
  let reason0 := strip form_reason in
  if decide (title0 = "" ∨ author0 = "" ∨ reason0 = "") then (Rejected, s)
  else
    (Success,
     with_book_recommendations
       (<[next_id (book_recommendations s) :=
            new_recommendation current_user_id title0 author0 reason0 now]>
          (book_recommendations s)) s).

End teacher.

(** [due_date < today] as the query evaluates it: never true of a NULL. *)
Definition due_before (today : Z) (r : BorrowRecord) : bool :=
  match due_date r with
  | Some due => bool_decide (due < today)
  | None => false
  end.

(** ** blueprints/student.py *)

Module student.

(** [borrow_book]: [today] is the one reading [date.today()]. *)
Definition borrow_book (current_user_id book_id today : Z) (s : db) : outcome * db :=
  match books s !! book_id with
  | None => (NotFound, s)
  | Some book =>
    if decide (copies_available book <= 0) then (OutOfStock, s)
    else match first (active_loans current_user_id book_id (borrow_records s)) with
         | Some _ => (AlreadyBorrowed, s)
         | None =>
           let borrow := new_loan current_user_id book_id today (today + 7) in
           (Success,
            with_borrow_records
              (<[next_id (borrow_records s) := borrow]> (borrow_records s))
              (with_books
                 (<[book_id := with_copies_available (copies_available book - 1) book]>
                    (books s)) s))
         end
  end.

(** [return_book]: [today] is the reading [date.today()].  [record.book]
    follows the foreign key; a missing book makes the attribute access
    raise. *)
Definition return_book (current_user_id record_id today : Z) (s : db) : outcome * db :=
  match borrow_records s !! record_id with
  | None => (NotFound, s)
  | Some record =>
    if decide (user_id record ≠ current_user_id) then (Unauthorized, s)
    else if returned record then (AlreadyReturned, s)
    else match books s !! book_id record with
         | None => (ServerError, s)
         | Some book =>
           (Success,
            with_borrow_records
              (<[record_id := mark_returned today record]> (borrow_records s))
              (with_books
                 (<[book_id record := with_copies_available (copies_available book + 1) book]>
                    (books s)) s))
         end
  end.

Definition fine_per_day : Z := 5.

(** One turn of the loop of [fines]: [to_date] is the identity on a stored
    day, [(today - due).days] the difference of the two days. *)
Definition fines_body (today fine_total : Z) (r : BorrowRecord) : Z :=
  match due_date r with
  | Some due =>
    if negb (returned r) && bool_decide (due < today)
    then fine_total + (today - due) * fine_per_day
    else fine_total
  | None => fine_total
  end.

Definition fines_loop (today : Z) (records : list BorrowRecord) : Z :=
  foldl (fines_body today) 0 records.

(** [fines]: the [fine_total] handed to the template. *)
Definition fines (current_user_id today : Z) (s : db) : Z :=
  fines_loop today (records_of current_user_id (borrow_records s)).

(** [dashboard]: [total_books], [borrowed_books] and [overdue_books] as
    handed to the template; [today] is the reading [date.today()]. *)
Definition dashboard (current_user_id today : Z) (s : db) : nat * nat * nat :=
  let total_books := size (books s) in
  let borrowed_books :=
    size (filter (λ kr : Z * BorrowRecord,
                    user_id kr.2 = current_user_id ∧ returned kr.2 = false)
            (borrow_records s)) in
  let overdue_books :=
    size (filter (λ kr : Z * BorrowRecord,
                    user_id kr.2 = current_user_id ∧ returned kr.2 = false
                    ∧ due_before today kr.2 = true)
            (borrow_records s)) in
  (total_books, borrowed_books, overdue_books).

End student.

(** ** routes.py *)

Module routes.

(** [recommend_book] (POST) of the stand-alone application. *)
Definition recommend_book (current_user_id : Z)
    (form_title0 form_author0 form_reason : string) (now : Z) (s : db) : outcome * db :=
  (Success,
   with_book_recommendations
     (<[next_id (book_recommendations s) :=
          new_recommendation current_user_id (strip form_title0) (strip form_author0)
            (strip form_reason) now]>
        (book_recommendations s)) s).

(** [fines]: the amounts of the rows whose stored [fine] is positive. *)
Definition fines (current_user_id : Z) (s : db) : list float :=
  fine <$> filter (λ b, PrimFloat.ltb 0 (fine b) = true)
             (records_of current_user_id (borrow_records s)).

(** The fines branch of [chatbot_api]: [sum(b.fine for b in ...)]. *)
Definition chatbot_api_fines (current_user_id : Z) (s : db) : float :=
  foldl PrimFloat.add 0%float
    (fine <$> records_of current_user_id (borrow_records s)).

End routes.

(** ** blueprints/chatbot.py *)

Module chatbot.

(** [r.fine or 0]: a zero is falsy. *)
Definition fine_or_0 (f : float) : float :=
  if PrimFloat.eqb f 0 then 0%float else f.

(** The [check_fines] branch of [chatbot_api]:
    [sum(r.fine or 0 for r in ...)]. *)
Definition check_fines (current_user_id : Z) (s : db) : float :=
  foldl PrimFloat.add 0%float
    (fine_or_0 ∘ fine <$> records_of current_user_id (borrow_records s)).

(** [INTENT_KEYWORDS], in the order of the dictionary. *)
Definition INTENT_KEYWORDS : list (string * list string) :=
  [ ("count_books", ["how many books"; "total books"; "books count"; "number of books"]);
    ("count_users", ["how many users"; "total users"; "users count"; "number of users"]);
    ("count_borrowed", ["how many borrowed"; "borrowed count"; "how many issued"]);
    ("my_borrowed", ["my books"; "what did i borrow"; "borrowed"; "issued"]);
    ("check_fines", ["fine"; "fines"; "penalty"; "how much fine"]);
    ("overdue", ["overdue"; "late"; "due date"; "expired"]);
    ("my_due_date", ["return date"; "when should i return"; "due date"]);
    ("search_book", ["search"; "find book"; "look for"; "book about"; "search book"]);
    ("available_books", ["available books"; "books available"; "in stock"; "can i borrow"]);
    ("books_by_author", ["books by"; "written by"; "author"]);
    ("books_by_category", ["ai books"; "programming books"; "database books"; "category"]);
    ("recommend_book",
     ["suggest me a book"; "recommend a book"; "what should i read";
      "book recommendation"; "suggest book"; "recommend book"]);
    ("admin_stats", ["system stats"; "admin stats"; "library stats"]);
    ("teacher_report", ["borrow report"; "students borrowing"; "borrowed books report"]);
    ("greeting", ["hi"; "hello"; "hey"; "help"]) ].

Definition FUZZY_THRESHOLD : Z := 70.

(** The two nested loops over [INTENT_KEYWORDS.items()]: the first intent,
    in table order, one of whose keywords passes [hit]. *)
Definition first_intent (hit : string → bool) (table : list (string * list string))
    : option string :=
  fst <$> List.find (λ ik : string * list string, existsb hit ik.2) table.

Section detect_intent.

(** [fuzz.partial_ratio] of the fuzzywuzzy package, which is not part of
    the repository: any scorer. *)
Variable partial_ratio : string → string → Z.

Definition detect_intent (text : string) : option string :=
  let t := strip (lower text) in
  match first_intent (λ k, contains k t) INTENT_KEYWORDS with
  | Some intent => Some intent
  | None =>
    match first_intent (λ k, bool_decide (FUZZY_THRESHOLD <= partial_ratio t k))
            INTENT_KEYWORDS with
    | Some intent => Some intent
    | None =>
      if contains "user" t || contains "member" t then Some "count_users"
      else if contains "book" t then
        if contains "search" t || contains "find" t then Some "search_book"
        else Some "count_books"
      else None
    end
  end.

End detect_intent.

End chatbot.

(** ** The application: every request that can commit *)

Inductive request :=
| AuthRegister (form_username form_email password form_role hashed_password : string) (now : Z)
| AdminUpdateRecommendationStatus (current_user : option Z) (rec_id : Z) (action : string)
| AdminAddBook (current_user : option Z) (form : BookForm)
| AdminEditBook (current_user : option Z) (id : Z) (form : BookForm)
| AdminDeleteBook (current_user : option Z) (id : Z)
| AdminAddUser (current_user : option Z)
    (form_username form_email form_role hashed_password : string) (now : Z)
| AdminDeleteUser (current_user : option Z) (id : Z)
| TeacherBorrowBook (current_user : option Z) (id now1 now2 : Z)
| TeacherReturnBook (current_user : option Z) (record_id now : Z)
| TeacherRecommendBook (current_user : option Z)
    (form_title0 form_author0 form_reason : string) (now : Z)
| StudentBorrowBook (current_user : option Z) (id today : Z)
| StudentReturnBook (current_user : option Z) (record_id today : Z)
| RoutesRecommendBook (current_user : option Z)
    (form_title0 form_author0 form_reason : string) (now : Z).

(** Each route with its decorators. *)
Definition handle (q : request) (s : db) : outcome * db :=
  match q with
  | AuthRegister u e p r h now => auth.register u e p r h now s
  | AdminUpdateRecommendationStatus cu rec_id action =>
    role_required Role.ADMIN cu (λ _, admin.update_recommendation_status rec_id action) s
  | AdminAddBook cu form => role_required Role.ADMIN cu (λ _, admin.add_book form) s
  | AdminEditBook cu id form => role_required Role.ADMIN cu (λ _, admin.edit_book id form) s
  | AdminDeleteBook cu id => role_required Role.ADMIN cu (λ _, admin.delete_book id) s
  | AdminAddUser cu u e r h now =>
    role_required Role.ADMIN cu (λ _, admin.add_user u e r h now) s
  | AdminDeleteUser cu id => role_required Role.ADMIN cu (λ _, admin.delete_user id) s
  | TeacherBorrowBook cu id now1 now2 =>
    role_required Role.TEACHER cu (λ uid, teacher.borrow_book uid id now1 now2) s
  | TeacherReturnBook cu record_id now =>
    role_required Role.TEACHER cu (λ uid, teacher.return_book uid record_id now) s
  | TeacherRecommendBook cu t a r now =>
    role_required Role.TEACHER cu (λ uid, teacher.recommend_book uid t a r now) s
  | StudentBorrowBook cu id today =>
    role_required Role.STUDENT cu (λ uid, student.borrow_book uid id today) s
  | StudentReturnBook cu record_id today =>
    role_required Role.STUDENT cu (λ uid, student.return_book uid record_id today) s
  | RoutesRecommendBook cu t a r now =>
    login_required cu (λ uid, routes.recommend_book uid t a r now) s
  end.

(** The database after a sequence of requests. *)
Definition run (qs : list request) (s : db) : db :=
  foldl (λ s q, (handle q s).2) s qs.

(** The number of loans on a book with [returned == false]. *)
Definition active_on (bid : Z) (rs : gmap Z BorrowRecord) : Z :=
  Z.of_nat (size (filter (λ kr : Z * BorrowRecord,
                            book_id kr.2 = bid ∧ returned kr.2 = false) rs)).

Definition active_count (bid : Z) (s : db) : Z :=
  active_on bid (borrow_records s).

(** The two invariants of the catalog: the bound on [copies_available], and
    conservation of copies. *)
Definition within_bounds (s : db) : Prop :=
  map_Forall (λ _ b, 0 <= copies_available b <= copies_total b) (books s).

Definition conserved (s : db) : Prop :=
  map_Forall (λ bid b, copies_available b = copies_total b - active_count bid s)
    (books s).

(** The lending requests other than a teacher's return of a loan that is
    already marked returned. *)
Definition guarded_lending (s : db) (q : request) : Prop :=
  match q with
  | StudentBorrowBook _ _ _ | TeacherBorrowBook _ _ _ _ | StudentReturnBook _ _ _ => True
  | TeacherReturnBook _ record_id _ =>
    returned <$> borrow_records s !! record_id ≠ Some true
  | _ => False
  end.

(** Which requests are lending operations on book [id]: a borrow of [id],
    and a return of a loan whose row names [id]. *)
Definition is_borrow_of (id : Z) (q : request) : Prop :=
  match q with
  | TeacherBorrowBook _ id' _ _ | StudentBorrowBook _ id' _ => id' = id
  | _ => False
  end.

Definition is_return_of (id : Z) (s : db) (q : request) : Prop :=
  match q with
  | TeacherReturnBook _ record_id _ | StudentReturnBook _ record_id _ =>
    book_id <$> borrow_records s !! record_id = Some id
  | _ => False
  end.

(** Every row of [borrow_records] has the default in its [fine] column. *)
Definition fine_is_default (s : db) : Prop :=
  map_Forall (λ _ r, fine r = 0%float) (borrow_records s).

(** The session a request comes with, and the role its route's decorator
    asks for ([register] has neither, the stand-alone [routes.py] only asks
    for a login). *)
Definition session_user (q : request) : option Z :=
  match q with
  | AuthRegister _ _ _ _ _ _ => None
  | AdminUpdateRecommendationStatus cu _ _ | AdminAddBook cu _
  | AdminEditBook cu _ _ | AdminDeleteBook cu _ | AdminAddUser cu _ _ _ _ _
  | AdminDeleteUser cu _ | TeacherBorrowBook cu _ _ _ | TeacherReturnBook cu _ _
  | TeacherRecommendBook cu _ _ _ _ | StudentBorrowBook cu _ _
  | StudentReturnBook cu _ _ | RoutesRecommendBook cu _ _ _ _ => cu
  end.

Definition required_role (q : request) : option string :=
  match q with
  | AuthRegister _ _ _ _ _ _ | RoutesRecommendBook _ _ _ _ _ => None
  | AdminUpdateRecommendationStatus _ _ _ | AdminAddBook _ _
  | AdminEditBook _ _ _ | AdminDeleteBook _ _ | AdminAddUser _ _ _ _ _ _
  | AdminDeleteUser _ _ => Some Role.ADMIN
  | TeacherBorrowBook _ _ _ _ | TeacherReturnBook _ _ _
  | TeacherRecommendBook _ _ _ _ _ => Some Role.TEACHER
  | StudentBorrowBook _ _ _ | StudentReturnBook _ _ _ => Some Role.STUDENT
  end.

(** The two requests that insert into [users]. *)
Definition adds_user (q : request) : Prop :=
  match q with
  | AuthRegister _ _ _ _ _ _ | AdminAddUser _ _ _ _ _ _ => True
  | _ => False
  end.

(** ** What a request can commit

    The nine ways a request changes the database; [handle_commit] shows
    that a successful request does one of them and that any other request
    does nothing. *)
Inductive commit (s : db) : db → Prop :=
| commit_user (u : User) :
    ¬ map_Exists (λ _ u', user_clash u u') (users s) →
    commit s (with_users (<[next_id (users s) := u]> (users s)) s)
| commit_user_deleted (id : Z) (u : User) :
    users s !! id = Some u → role u ≠ Role.ADMIN →
    ¬ map_Exists (λ _ r, user_id r = id) (borrow_records s) →
    ¬ map_Exists (λ _ r, rec_user_id r = id) (book_recommendations s) →
    commit s (with_users (delete id (users s)) s)
| commit_book (b : Book) :
    copies_available b = copies_total b →
    ¬ map_Exists (λ _ b', book_clash b b') (books s) →
    commit s (with_books (<[next_id (books s) := b]> (books s)) s)
| commit_book_edited (id : Z) (b b' : Book) :
    books s !! id = Some b →
    copies_available b'
    = Z.max (copies_total b' - (copies_total b - copies_available b)) 0 →
    ¬ map_Exists (λ _ b0, book_clash b' b0) (delete id (books s)) →
    commit s (with_books (<[id := b']> (books s)) s)
| commit_book_deleted (id : Z) (b : Book) :
    books s !! id = Some b →
    ¬ map_Exists (λ _ r, book_id r = id) (borrow_records s) →
    commit s (with_books (delete id (books s)) s)
| commit_borrow (uid bid borrowed due : Z) (u : User) (b : Book) :
    users s !! uid = Some u → books s !! bid = Some b →
    0 < copies_available b →
    active_loans uid bid (borrow_records s) = ∅ →
    commit s
      (with_borrow_records
         (<[next_id (borrow_records s) := new_loan uid bid borrowed due]>
            (borrow_records s))
         (with_books
            (<[bid := with_copies_available (copies_available b - 1) b]> (books s)) s))
| commit_return (uid rid d : Z) (u : User) (r : BorrowRecord) (b : Book) :
    users s !! uid = Some u → borrow_records s !! rid = Some r →
    user_id r = uid → books s !! book_id r = Some b →
    commit s
      (with_borrow_records (<[rid := mark_returned d r]> (borrow_records s))
         (with_books
            (<[book_id r := with_copies_available (copies_available b + 1) b]>
               (books s)) s))
| commit_recommendation (uid now : Z) (u : User) (t a why : string) :
    users s !! uid = Some u →
    commit s
      (with_book_recommendations
         (<[next_id (book_recommendations s) := new_recommendation uid t a why now]>
            (book_recommendations s)) s)
| commit_recommendation_status (id : Z) (rec : BookRecommendation) (action : string) :
    book_recommendations s !! id = Some rec →
    action ∈ ["approved"; "rejected"] →
    commit s
      (with_book_recommendations
         (<[id := {| rec_user_id := rec_user_id rec; rec_title := rec_title rec;
                     rec_author := rec_author rec; rec_reason := rec_reason rec;
                     rec_status := action; rec_date := rec_date rec |}]>
            (book_recommendations s)) s).

(** A handler's answer on [s]: a success that commits, or a failure that
    leaves [s] as it was. *)
Definition commits_or_not (s : db) (res : outcome * db) : Prop :=
  (res.1 = Success ∧ commit s res.2) ∨ (res.1 ≠ Success ∧ res.2 = s).

(** ** Invariants of the tables *)

(** At most one unreturned loan per user and book. *)
Definition one_active_loan (s : db) : Prop :=
  ∀ i j r r',
    borrow_records s !! i = Some r → borrow_records s !! j = Some r' →
    returned r = false → returned r' = false →
    user_id r = user_id r' → book_id r = book_id r' → i = j.

(** Every loan has its borrow and due dates, and a return date exactly when
    it is returned. *)
Definition loans_well_formed (s : db) : Prop :=
  map_Forall (λ _ r, is_Some (borrow_date r) ∧ is_Some (due_date r)
                     ∧ (returned r = true ↔ is_Some (return_date r)))
    (borrow_records s).

(** Every loan and every recommendation names rows that exist. *)
Definition referential_integrity (s : db) : Prop :=
  map_Forall (λ _ r, is_Some (users s !! user_id r) ∧ is_Some (books s !! book_id r))
    (borrow_records s)
  ∧ map_Forall (λ _ r, is_Some (users s !! rec_user_id r)) (book_recommendations s).

(** The unique constraints hold between any two rows. *)
Definition users_unique (s : db) : Prop :=
  ∀ i j u u', users s !! i = Some u → users s !! j = Some u' →
    user_clash u u' → i = j.

Definition books_unique (s : db) : Prop :=
  ∀ i j b b', books s !! i = Some b → books s !! j = Some b' →
    book_clash b b' → i = j.

(** The status of a recommendation is one of the three of [models.py]. *)
Definition statuses_valid (s : db) : Prop :=
  map_Forall (λ _ r, rec_status r ∈ ["pending"; "approved"; "rejected"])
    (book_recommendations s).

(** ** Scenarios

    A small library built through the application itself, from the empty
    database: an admin (user 1), a teacher (user 2) and a student (user 3)
    register, and the admin adds one book (book 1) with a single copy. *)

Definition one_copy : BookForm :=
  {| form_isbn := ""; form_title := "Logic"; form_author := "A. Author";
     form_publisher := "Press"; form_year := Some 2020;
     form_copies_total := Some 1; form_category := "math";
     form_description := ""; form_rating := Some 0; form_cover := None |}.

Definition five_copies : BookForm :=
  {| form_isbn := ""; form_title := "Logic"; form_author := "A. Author";
     form_publisher := "Press"; form_year := Some 2020;
     form_copies_total := Some 5; form_category := "math";
     form_description := ""; form_rating := Some 0; form_cover := None |}.

Definition setup : list request :=
  [ AuthRegister "root" "root@lib" "pw" "admin" "h1" 0;
    AuthRegister "tina" "tina@lib" "pw" "teacher" "h2" 0;
    AuthRegister "sam" "sam@lib" "pw" "student" "h3" 0;
    AdminAddBook (Some 1) one_copy ].

Definition library : db := run setup init_db.

(** The teacher borrows book 1 on day 0 and returns it on day 1. *)
Definition teacher_lent_and_returned : db :=
  run [ TeacherBorrowBook (Some 2) 1 0 0; TeacherReturnBook (Some 2) 1 1 ] library.

(** The student borrows book 1 on day 0. *)
Definition student_lent : db :=
  run [ StudentBorrowBook (Some 3) 1 0 ] library.

(** The teacher borrows book 1 on day 0. *)
Definition teacher_lent : db :=
  run [ TeacherBorrowBook (Some 2) 1 0 0 ] library.

(** The student borrows book 1 on day 0 and returns it on day 10. *)
Definition student_returned_late : db :=
  run [ StudentReturnBook (Some 3) 1 10 ] student_lent.

(** * Properties *)

(** ** Tables *)

Lemma foldr_max_ge (l : list Z) (k : Z) : k ∈ l → k <= foldr Z.max 0 l.
Proof. induction 1; simpl; lia. Qed.

(** The key an insert picks is not in use. *)
Lemma next_id_fresh {A} (m : gmap Z A) : m !! next_id m = None.
Proof.
  destruct (m !! next_id m) as [x|] eqn:E; [|done].
  apply elem_of_map_to_list in E.
  assert (next_id m ∈ (map_to_list m).*1) as Hin.
  { apply list_elem_of_fmap. by exists (next_id m, x). }
  apply foldr_max_ge in Hin. unfold next_id in Hin. lia.
Qed.

(** A query with a matching row has a first row. *)
Lemma first_is_Some {A} (m : gmap Z A) (k : Z) (x : A) :
  m !! k = Some x → is_Some (first m).
Proof.
  intros Hk. unfold first.
  destruct (map_to_list m) as [|kx l] eqn:E; [|by eexists].
  apply map_to_list_empty_iff in E. by rewrite E in Hk.
Qed.

Lemma active_loans_first (rs : gmap Z BorrowRecord) (uid bid rid : Z) (r : BorrowRecord) :
  rs !! rid = Some r → user_id r = uid → book_id r = bid → returned r = false →
  is_Some (first (active_loans uid bid rs)).
Proof.
  intros Hr Hu Hb Ha. apply (first_is_Some _ rid r).
  unfold active_loans. by apply map_lookup_filter_Some.
Qed.

(** ** Return *)

(** C8: a return requested by a user who is not the owner of the loan is
    answered [Unauthorized] by both the student and the teacher handler, and
    the database is left as it was: the loan row (its [returned] flag and
    [return_date]) and every book's [copies_available] are untouched. *)
Theorem return_book_not_owner_unauthorized
    (s : db) (requesting_user_id record_id now : Z) (record : BorrowRecord) :
  borrow_records s !! record_id = Some record →
  user_id record ≠ requesting_user_id →
  student.return_book requesting_user_id record_id now s = (Unauthorized, s)
  ∧ teacher.return_book requesting_user_id record_id now s = (Unauthorized, s).
Proof.
  intros Hr Hne. unfold student.return_book, teacher.return_book.
  rewrite Hr. by rewrite !decide_True.
Qed.

Lemma return_book_not_owner_unauthorized_witness :
  borrow_records student_lent !! 1 = Some (new_loan 3 1 0 7)
  ∧ student.return_book 2 1 4 student_lent = (Unauthorized, student_lent)
  ∧ teacher.return_book 2 1 4 student_lent = (Unauthorized, student_lent).
Proof.
  assert (borrow_records student_lent !! 1 = Some (new_loan 3 1 0 7)) as H
    by (vm_compute; reflexivity).
  split; [exact H|].
  apply (return_book_not_owner_unauthorized student_lent 2 1 4 _ H).
  simpl. lia.
Defined.

(** The student handler turns down a second return of a loan. *)
Lemma student_return_book_already_returned
    (s : db) (uid record_id today : Z) (record : BorrowRecord) :
  borrow_records s !! record_id = Some record →
  user_id record = uid → returned record = true →
  student.return_book uid record_id today s = (AlreadyReturned, s).
Proof.
  intros Hr Hu Ht. unfold student.return_book.
  rewrite Hr, decide_False, Ht; [done|]. intros ?. done.
Qed.

(** On a loan that is not yet returned the two return handlers do the
    same; they differ only on a loan that is. *)
Lemma teacher_return_book_unreturned
    (s : db) (uid record_id now : Z) (record : BorrowRecord) :
  borrow_records s !! record_id = Some record →
  returned record = false →
  teacher.return_book uid record_id now s = student.return_book uid record_id now s.
Proof.
  intros Hr Ha. unfold teacher.return_book, student.return_book.
  rewrite Hr, Ha. done.
Qed.

(** C2, at the failing input: the teacher (user 2) owns loan 1, which is
    already returned (on day 1).  A further return of loan 1 by the teacher
    on day 2 is answered [Success], not [AlreadyReturned]; it overwrites the
    loan's [return_date] and raises the book's [copies_available] from 1 to
    2.  The student handler rejects the same call
    ([student_return_book_already_returned]). *)
Theorem teacher_return_book_twice_not_rejected :
  let s := teacher_lent_and_returned in
  let res := handle (TeacherReturnBook (Some 2) 1 2) s in
  borrow_records s !! 1 = Some (mark_returned 1 (new_loan 2 1 0 14))
  ∧ copies_available <$> books s !! 1 = Some 1
  ∧ res.1 = Success
  ∧ res.1 ≠ AlreadyReturned
  ∧ borrow_records res.2 !! 1 = Some (mark_returned 2 (new_loan 2 1 0 14))
  ∧ copies_available <$> books res.2 !! 1 = Some 2.
Proof. vm_compute. repeat split; done. Qed.

(** A property of every book of a table with the rows [l]. *)
Lemma map_Forall_rows {A} (P : Z → A → Prop) (m : gmap Z A) (l : list (Z * A)) :
  map_to_list m = l → Forall (λ kx, P kx.1 kx.2) l → map_Forall P m.
Proof.
  intros <- Hl. apply map_Forall_to_list.
  eapply Forall_impl; [exact Hl|]. by intros [k x].
Qed.

(** C1, at the failing input: [library], where book 1 has
    [copies_total = copies_available = 1], is within bounds.  After the
    teacher borrows the book and returns the same loan twice, the book has
    [copies_total = 1] and [copies_available = 2]: the bound
    [copies_available <= copies_total] is broken. *)
Theorem teacher_double_return_exceeds_total :
  let s := run [ TeacherReturnBook (Some 2) 1 2 ] teacher_lent_and_returned in
  within_bounds library
  ∧ copies_total <$> books s !! 1 = Some 1
  ∧ copies_available <$> books s !! 1 = Some 2
  ∧ ¬ within_bounds s.
Proof.
  intros s. split; [|split; [|split]].
  - eapply map_Forall_rows; [vm_compute; reflexivity|].
    repeat constructor; simpl; lia.
  - vm_compute. reflexivity.
  - vm_compute. reflexivity.
  - intros Hs.
    assert (∃ b, books s !! 1 = Some b ∧ copies_available b = 2 ∧ copies_total b = 1)
      as (b & Hb & Ha & Ht).
    { eexists. split; [vm_compute; reflexivity|]. split; reflexivity. }
    specialize (Hs 1 b Hb). simpl in Hs. lia.
Qed.

(** C3, at the failing input: [library] conserves copies.  After the
    teacher borrows book 1 and returns the same loan twice, no loan on
    book 1 is unreturned, so [copies_total] minus the number of unreturned
    loans is 1, while [copies_available] is 2. *)
Theorem teacher_double_return_breaks_conservation :
  let s := run [ TeacherReturnBook (Some 2) 1 2 ] teacher_lent_and_returned in
  conserved library
  ∧ copies_total <$> books s !! 1 = Some 1
  ∧ active_count 1 s = 0
  ∧ copies_available <$> books s !! 1 = Some 2
  ∧ ¬ conserved s.
Proof.
  intros s. split; [|split; [|split; [|split]]].
  - eapply map_Forall_rows; [vm_compute; reflexivity|].
    repeat constructor.
  - vm_compute. reflexivity.
  - vm_compute. reflexivity.
  - vm_compute. reflexivity.
  - intros Hs.
    assert (∃ b, books s !! 1 = Some b ∧ copies_available b = 2 ∧ copies_total b = 1)
      as (b & Hb & Ha & Ht).
    { eexists. split; [vm_compute; reflexivity|]. split; reflexivity. }
    specialize (Hs 1 b Hb). simpl in Hs.
    assert (active_count 1 s = 0) as Hn by (vm_compute; reflexivity).
    lia.
Qed.

(** ** Copies are conserved where a return is guarded *)

Lemma active_on_insert_new (rs : gmap Z BorrowRecord) (k bid : Z) (r : BorrowRecord) :
  rs !! k = None → returned r = false →
  active_on bid (<[k := r]> rs)
  = active_on bid rs + (if decide (book_id r = bid) then 1 else 0).
Proof.
  intros Hk Ha. unfold active_on. destruct (decide (book_id r = bid)) as [Hb|Hb].
  - rewrite map_filter_insert_True by done.
    rewrite map_size_insert_None; [lia|].
    apply map_lookup_filter_None. by left.
  - rewrite map_filter_insert_False by (simpl; tauto).
    rewrite delete_id by done. lia.
Qed.

Lemma active_on_mark_returned (rs : gmap Z BorrowRecord) (k bid d : Z) (r : BorrowRecord) :
  rs !! k = Some r → returned r = false →
  active_on bid (<[k := mark_returned d r]> rs)
  = active_on bid rs - (if decide (book_id r = bid) then 1 else 0).
Proof.
  intros Hk Ha. unfold active_on.
  rewrite map_filter_insert_False by (simpl; intros [_ ?]; done).
  set (P := λ kr : Z * BorrowRecord, book_id kr.2 = bid ∧ returned kr.2 = false).
  replace (filter P rs) with (filter P (<[k := r]> (delete k rs)))
    by (by rewrite insert_delete_id).
  destruct (decide (book_id r = bid)) as [Hb|Hb].
  - rewrite map_filter_insert_True by done.
    rewrite map_size_insert_None; [lia|].
    apply map_lookup_filter_None. left. apply lookup_delete_eq.
  - rewrite map_filter_insert_False by (unfold P; simpl; tauto).
    rewrite delete_delete_eq. lia.
Qed.

Lemma borrow_commit_conserved (s : db) (bid : Z) (book : Book) (r : BorrowRecord) :
  conserved s → books s !! bid = Some book →
  returned r = false → book_id r = bid →
  conserved
    (with_borrow_records (<[next_id (borrow_records s) := r]> (borrow_records s))
       (with_books
          (<[bid := with_copies_available (copies_available book - 1) book]> (books s))
          s)).
Proof.
  intros Hc Hb Ha Hk i b' Hi. unfold active_count. simpl in *.
  rewrite active_on_insert_new by auto using next_id_fresh.
  apply lookup_insert_Some in Hi as [[<- <-]|[Hne Hi]]; simpl.
  - rewrite decide_True by done. specialize (Hc _ _ Hb).
    unfold active_count in Hc. lia.
  - rewrite decide_False by congruence. specialize (Hc _ _ Hi).
    unfold active_count in Hc. lia.
Qed.

Lemma return_commit_conserved (s : db) (rid d : Z) (book : Book) (r : BorrowRecord) :
  conserved s → borrow_records s !! rid = Some r → returned r = false →
  books s !! book_id r = Some book →
  conserved
    (with_borrow_records (<[rid := mark_returned d r]> (borrow_records s))
       (with_books
          (<[book_id r := with_copies_available (copies_available book + 1) book]>
             (books s)) s)).
Proof.
  intros Hc Hr Ha Hb i b' Hi. unfold active_count. simpl in *.
  rewrite (active_on_mark_returned _ _ _ _ r) by done.
  apply lookup_insert_Some in Hi as [[<- <-]|[Hne Hi]]; simpl.
  - rewrite decide_True by done. specialize (Hc _ _ Hb).
    unfold active_count in Hc. lia.
  - rewrite decide_False by congruence. specialize (Hc _ _ Hi).
    unfold active_count in Hc. lia.
Qed.

(** The four lending handlers keep the conservation of copies, as long as
    the teacher's return is not called on a loan already returned. *)
Lemma guarded_lending_conserved (s : db) (uid id today now1 now2 : Z) :
  conserved s →
  conserved (student.borrow_book uid id today s).2
  ∧ conserved (teacher.borrow_book uid id now1 now2 s).2
  ∧ conserved (student.return_book uid id today s).2
  ∧ (∀ r, borrow_records s !! id = Some r → returned r = false →
       conserved (teacher.return_book uid id today s).2).
Proof.
  intros Hc. repeat split.
  - unfold student.borrow_book. repeat case_match; simpl; try exact Hc.
    by apply borrow_commit_conserved.
  - unfold teacher.borrow_book. repeat case_match; simpl; try exact Hc.
    by apply borrow_commit_conserved.
  - unfold student.return_book. repeat case_match; simpl; try exact Hc.
    by apply return_commit_conserved.
  - intros r Hr Ha. rewrite (teacher_return_book_unreturned _ _ _ _ r Hr Ha).
    unfold student.return_book. repeat case_match; simpl; try exact Hc.
    by apply return_commit_conserved.
Qed.

(** No lending handler makes a count negative. *)
Lemma lending_keeps_nonneg (s : db) (uid id today now1 now2 : Z) :
  let nonneg (s : db) := map_Forall (λ _ b, 0 <= copies_available b) (books s) in
  nonneg s →
  nonneg (student.borrow_book uid id today s).2
  ∧ nonneg (teacher.borrow_book uid id now1 now2 s).2
  ∧ nonneg (student.return_book uid id today s).2
  ∧ nonneg (teacher.return_book uid id today s).2.
Proof.
  intros nonneg Hs. subst nonneg. simpl in *.
  unfold student.borrow_book, teacher.borrow_book,
    student.return_book, teacher.return_book.
  repeat split; repeat case_match; simpl; try exact Hs.
  all: apply map_Forall_insert_2; [simpl|exact Hs].
  all: match goal with H : books _ !! _ = Some _ |- _ => specialize (Hs _ _ H) end.
  all: simpl in Hs; lia.
Qed.

(** Conservation gives the upper bound. *)
Lemma conserved_le_total (s : db) :
  conserved s → map_Forall (λ _ b, copies_available b <= copies_total b) (books s).
Proof.
  intros Hc i b Hb. specialize (Hc i b Hb). simpl in *.
  unfold active_count, active_on in Hc. lia.
Qed.

(** From a catalog that is within bounds and conserves copies, every borrow,
    every student return, and every teacher return of a loan not yet
    returned leads to such a catalog again.  The teacher's return of a loan
    already returned is the one lending path left out. *)
Lemma guarded_lending_keeps_invariants (s : db) (uid id today now1 now2 : Z) :
  let good (s : db) := within_bounds s ∧ conserved s in
  good s →
  good (student.borrow_book uid id today s).2
  ∧ good (teacher.borrow_book uid id now1 now2 s).2
  ∧ good (student.return_book uid id today s).2
  ∧ (∀ r, borrow_records s !! id = Some r → returned r = false →
       good (teacher.return_book uid id today s).2).
Proof.
  intros good [Hb Hc]. subst good. simpl.
  destruct (guarded_lending_conserved s uid id today now1 now2 Hc)
    as (K1 & K2 & K3 & K4).
  destruct (lending_keeps_nonneg s uid id today now1 now2) as (N1 & N2 & N3 & N4).
  { intros i b Hi. apply (Hb i b Hi). }
  assert (∀ s', map_Forall (λ _ b, 0 <= copies_available b) (books s') →
                conserved s' → within_bounds s' ∧ conserved s') as Hgood.
  { intros s' Hn Hc'. split; [|done]. intros i b Hi.
    pose proof (Hn i b Hi). pose proof (conserved_le_total s' Hc' i b Hi).
    simpl in *. lia. }
  split; [by apply Hgood|]. split; [by apply Hgood|].
  split; [by apply Hgood|].
  intros r Hr Ha. apply Hgood; eauto.
Qed.

(** ** Borrow *)

(** Both borrow handlers look at the stock first. *)
Lemma borrow_book_out_of_stock
    (s : db) (uid bid today now1 now2 : Z) (book : Book) :
  books s !! bid = Some book → copies_available book <= 0 →
  student.borrow_book uid bid today s = (OutOfStock, s)
  ∧ teacher.borrow_book uid bid now1 now2 s = (OutOfStock, s).
Proof.
  intros Hb Hc. unfold student.borrow_book, teacher.borrow_book.
  rewrite Hb. by rewrite !decide_True.
Qed.

(** C7, the claim as stated fails: in [student_lent] the student (user 3)
    holds an unreturned loan on book 1 and the book has no copy left; a
    further borrow of book 1 by the student is answered [OutOfStock], not
    [AlreadyBorrowed].  The same holds for the teacher in [teacher_lent]. *)
Lemma borrow_book_holder_without_stock_gets_OutOfStock :
  borrow_records student_lent !! 1 = Some (new_loan 3 1 0 7)
  ∧ copies_available <$> books student_lent !! 1 = Some 0
  ∧ (handle (StudentBorrowBook (Some 3) 1 0) student_lent).1 = OutOfStock
  ∧ borrow_records teacher_lent !! 1 = Some (new_loan 2 1 0 14)
  ∧ copies_available <$> books teacher_lent !! 1 = Some 0
  ∧ (handle (TeacherBorrowBook (Some 2) 1 0 0) teacher_lent).1 = OutOfStock
  ∧ OutOfStock ≠ AlreadyBorrowed.
Proof. vm_compute. repeat split; done. Qed.

(** C7, amended: the borrow handlers check in the order [OutOfStock] then
    [AlreadyBorrowed].  For a user who holds an unreturned loan on the
    requested book, whatever the role, the answer is [AlreadyBorrowed] when
    the book has a copy available and [OutOfStock] when
    [copies_available <= 0]; the database is unchanged either way. *)
Theorem borrow_book_holder_checks_stock_first
    (s : db) (uid bid rid today now1 now2 : Z) (book : Book) (r : BorrowRecord) :
  books s !! bid = Some book →
  borrow_records s !! rid = Some r →
  user_id r = uid → book_id r = bid → returned r = false →
  (0 < copies_available book →
     student.borrow_book uid bid today s = (AlreadyBorrowed, s)
     ∧ teacher.borrow_book uid bid now1 now2 s = (AlreadyBorrowed, s))
  ∧ (copies_available book <= 0 →
       student.borrow_book uid bid today s = (OutOfStock, s)
       ∧ teacher.borrow_book uid bid now1 now2 s = (OutOfStock, s)).
Proof.
  intros Hb Hr Hu Hk Ha. split; intros Hc.
  - destruct (active_loans_first _ _ _ _ _ Hr Hu Hk Ha) as [x Hx].
    unfold student.borrow_book, teacher.borrow_book.
    rewrite Hb, !decide_False, Hx by lia. done.
  - by eapply borrow_book_out_of_stock.
Qed.

(** A state where the holder of a loan finds a copy available: the admin
    raised the stock of book 1 to five copies after the student took one. *)
Lemma borrow_book_holder_checks_stock_first_witness :
  let s := run [ AdminEditBook (Some 1) 1 five_copies ] student_lent in
  copies_available <$> books s !! 1 = Some 4
  ∧ student.borrow_book 3 1 2 s = (AlreadyBorrowed, s)
  ∧ teacher.borrow_book 3 1 2 2 s = (AlreadyBorrowed, s)
  ∧ student.borrow_book 3 1 2 student_lent = (OutOfStock, student_lent)
  ∧ teacher.borrow_book 3 1 2 2 student_lent = (OutOfStock, student_lent).
Proof.
  intros s.
  assert (∃ b, books s !! 1 = Some b ∧ copies_available b = 4) as (b & Hb & Hc).
  { eexists. split; [vm_compute; reflexivity|reflexivity]. }
  assert (borrow_records s !! 1 = Some (new_loan 3 1 0 7)) as Hr
    by (vm_compute; reflexivity).
  assert (∃ b0, books student_lent !! 1 = Some b0 ∧ copies_available b0 = 0)
    as (b0 & Hb0 & Hc0).
  { eexists. split; [vm_compute; reflexivity|reflexivity]. }
  assert (borrow_records student_lent !! 1 = Some (new_loan 3 1 0 7)) as Hr0
    by (vm_compute; reflexivity).
  split; [rewrite Hb; simpl; rewrite Hc; reflexivity|].
  pose proof (borrow_book_holder_checks_stock_first s 3 1 1 2 2 2 b _
                Hb Hr eq_refl eq_refl eq_refl) as [Hyes _].
  pose proof (borrow_book_holder_checks_stock_first student_lent 3 1 1 2 2 2 b0 _
                Hb0 Hr0 eq_refl eq_refl eq_refl) as [_ Hno].
  destruct Hyes as [? ?]; [lia|]. destruct Hno as [? ?]; [lia|].
  repeat split; assumption.
Defined.

(** What a successful borrow commits: the new row, under a fresh key, and
    one copy less of the book. *)
Lemma student_borrow_book_success (s s' : db) (uid bid today : Z) :
  student.borrow_book uid bid today s = (Success, s') →
  ∃ book, books s !! bid = Some book
    ∧ 0 < copies_available book
    ∧ borrow_records s !! next_id (borrow_records s) = None
    ∧ borrow_records s'
      = <[next_id (borrow_records s) := new_loan uid bid today (today + 7)]>
          (borrow_records s)
    ∧ books s'
      = <[bid := with_copies_available (copies_available book - 1) book]> (books s).
Proof.
  unfold student.borrow_book. intros H.
  destruct (books s !! bid) as [book|]; [|done].
  destruct (decide _); [done|].
  destruct (first _); [done|].
  injection H as <-. exists book. simpl.
  repeat split; auto using next_id_fresh. lia.
Qed.

Lemma teacher_borrow_book_success (s s' : db) (uid bid now1 now2 : Z) :
  teacher.borrow_book uid bid now1 now2 s = (Success, s') →
  ∃ book, books s !! bid = Some book
    ∧ 0 < copies_available book
    ∧ borrow_records s !! next_id (borrow_records s) = None
    ∧ borrow_records s'
      = <[next_id (borrow_records s) := new_loan uid bid now1 (now2 + 14)]>
          (borrow_records s)
    ∧ books s'
      = <[bid := with_copies_available (copies_available book - 1) book]> (books s).
Proof.
  unfold teacher.borrow_book. intros H.
  destruct (books s !! bid) as [book|]; [|done].
  destruct (decide _); [done|].
  destruct (first _); [done|].
  injection H as <-. exists book. simpl.
  repeat split; auto using next_id_fresh. lia.
Qed.

(** C5, at the failing input: the teacher (user 2) borrows book 1 of
    [library]; the clock reading taken for [borrow_date] falls on day 0 and
    the one taken for [due_date] on day 1.  The borrow succeeds and takes
    one copy (1 to 0), but the row has [borrow_date = 0] and
    [due_date = 15], one day more than [borrow_date + 14].  With both
    readings on one day the due date is [borrow_date + 14]
    ([teacher_borrow_book_success]), and the student handler, which reads
    the clock once, always gives [borrow_date + 7]
    ([student_borrow_book_success]). *)
Theorem teacher_borrow_book_across_midnight :
  let res := handle (TeacherBorrowBook (Some 2) 1 0 1) library in
  res.1 = Success
  ∧ copies_available <$> books library !! 1 = Some 1
  ∧ copies_available <$> books res.2 !! 1 = Some 0
  ∧ borrow_date <$> borrow_records res.2 !! 1 = Some (Some 0)
  ∧ due_date <$> borrow_records res.2 !! 1 = Some (Some 15)
  ∧ due_date <$> borrow_records res.2 !! 1 ≠ Some (Some (0 + 14)).
Proof. vm_compute. repeat split; done. Qed.

(** ** Who writes [copies_available] *)

(** C6, the claim as stated fails: in [library] book 1 has one copy
    available; the admin's [edit_book] with [copies_total = 5], which is
    neither a borrow nor a return, succeeds and leaves five available. *)
Lemma edit_book_changes_copies_available :
  let q := AdminEditBook (Some 1) 1 five_copies in
  let res := handle q library in
  res.1 = Success
  ∧ copies_available <$> books library !! 1 = Some 1
  ∧ copies_available <$> books res.2 !! 1 = Some 5
  ∧ ¬ is_borrow_of 1 q
  ∧ ¬ is_return_of 1 library q.
Proof. vm_compute. repeat split; auto; done. Qed.

(** C6, amended: [copies_available] of an existing book is changed by
    three operations only, and by each in one way.  For every request of the
    application and every book in the catalog, either the request is a
    successful [delete_book] of that book, which removes it, or the book is
    still there and its count is: one less after a successful borrow of the
    book, one more after a successful return of a loan on the book,
    [max (new_total - (copies_total - copies_available)) 0] after a
    successful [edit_book] of the book, and unchanged after every other
    request and after every request that does not succeed. *)
Theorem copies_available_frame (q : request) (s : db) (id : Z) (b : Book) :
  books s !! id = Some b →
  ((handle q s).1 = Success
   ∧ (∃ cu, q = AdminDeleteBook cu id)
   ∧ books (handle q s).2 !! id = None)
  ∨ ∃ b',
      books (handle q s).2 !! id = Some b'
      ∧ ((handle q s).1 = Success → is_borrow_of id q →
         copies_available b' = copies_available b - 1)
      ∧ ((handle q s).1 = Success → is_return_of id s q →
         copies_available b' = copies_available b + 1)
      ∧ (∀ cu form, (handle q s).1 = Success → q = AdminEditBook cu id form →
           ∃ new_total,
             form_copies_total form = Some new_total
             ∧ copies_available b'
               = Z.max (new_total - (copies_total b - copies_available b)) 0)
      ∧ ((handle q s).1 ≠ Success
         ∨ (¬ is_borrow_of id q ∧ ¬ is_return_of id s q
            ∧ ¬ ∃ cu form, q = AdminEditBook cu id form) →
         copies_available b' = copies_available b).
Proof.
  intros Hb.
  destruct q; simpl; unfold role_required, login_required.
  all: unfold auth.register, admin.update_recommendation_status, admin.add_book,
      admin.edit_book, admin.delete_book, admin.add_user, admin.delete_user,
      teacher.borrow_book, teacher.return_book, teacher.recommend_book,
      student.borrow_book, student.return_book, routes.recommend_book.
  all: repeat case_match; simpl.
  all: rewrite ?lookup_insert, ?lookup_delete; repeat case_decide; subst.
  all: try (by rewrite next_id_fresh in Hb).
  all: rewrite ?Hb.
  all: first [ left; split; [reflexivity|]; split; [by eexists|reflexivity]
             | right; eexists; split; [reflexivity|] ].
  all: simplify_eq/=.
  all: repeat split; try (intros; simplify_eq/=; done); try (intros; simplify_eq/=; lia).
  all: try (intros ? ? _ [= <- <-]; eexists; split; [eassumption|reflexivity]).
  all: intros [?|(Hx & Hy & Hz)]; [done|]; exfalso.
  all: first [ by apply Hx | by apply Hy | apply Hz; eauto ].
Qed.

Lemma copies_available_frame_witness :
  (∃ b b',
     books library !! 1 = Some b
     ∧ books (handle (StudentBorrowBook (Some 3) 1 0) library).2 !! 1 = Some b'
     ∧ copies_available b' = copies_available b - 1)
  ∧ (∃ b b',
       books library !! 1 = Some b
       ∧ books (handle (AdminEditBook (Some 1) 1 five_copies) library).2 !! 1 = Some b'
       ∧ copies_available b' = Z.max (5 - (copies_total b - copies_available b)) 0).
Proof.
  assert (∃ b, books library !! 1 = Some b) as [b Hb]
    by (eexists; vm_compute; reflexivity).
  split.
  - destruct (copies_available_frame (StudentBorrowBook (Some 3) 1 0) library 1 b Hb)
      as [(_ & [cu Hq] & _)|(b' & Hb' & Hborrow & _)]; [discriminate Hq|].
    exists b, b'. split; [exact Hb|]. split; [exact Hb'|].
    apply Hborrow; [vm_compute; reflexivity|reflexivity].
  - destruct (copies_available_frame (AdminEditBook (Some 1) 1 five_copies) library 1 b Hb)
      as [(_ & [cu Hq] & _)|(b' & Hb' & _ & _ & Hedit & _)]; [discriminate Hq|].
    exists b, b'. split; [exact Hb|]. split; [exact Hb'|].
    destruct (Hedit (Some 1) five_copies) as (n & Hn & Hc);
      [vm_compute; reflexivity|reflexivity|].
    injection Hn as <-. exact Hc.
Defined.


(** ** Fines *)

Section fines_loop.
Variable today : Z.

(** The loop adds to the running total an amount that depends on the row
    alone. *)
Lemma fines_body_acc (fine_total : Z) (r : BorrowRecord) :
  student.fines_body today fine_total r
  = fine_total + student.fines_body today 0 r.
Proof.
  unfold student.fines_body.
  destruct (due_date r); [|lia]. destruct (_ && _); lia.
Qed.

Lemma foldl_fines_body (fine_total : Z) (records : list BorrowRecord) :
  foldl (student.fines_body today) fine_total records
  = fine_total + student.fines_loop today records.
Proof.
  unfold student.fines_loop. revert fine_total.
  induction records as [|r records IH]; intros a; simpl; [lia|].
  rewrite (IH (student.fines_body today a r)),
    (IH (student.fines_body today 0 r)), (fines_body_acc a). lia.
Qed.

Lemma fines_loop_cons (r : BorrowRecord) (records : list BorrowRecord) :
  student.fines_loop today (r :: records)
  = student.fines_body today 0 r + student.fines_loop today records.
Proof. unfold student.fines_loop at 1. simpl. apply foldl_fines_body. Qed.

(** The order in which the query yields the rows does not matter. *)
Lemma fines_loop_perm (l l' : list BorrowRecord) :
  l ≡ₚ l' → student.fines_loop today l = student.fines_loop today l'.
Proof.
  induction 1 as [|r l l' _ IH|r r' l|l l' l'' _ IH _ IH'].
  - done.
  - by rewrite !fines_loop_cons, IH.
  - rewrite !fines_loop_cons. lia.
  - by rewrite IH.
Qed.

End fines_loop.

(** The rows of a user: one of them and the others. *)
Lemma records_of_lookup (rs : gmap Z BorrowRecord) (uid rid : Z) (r : BorrowRecord) :
  rs !! rid = Some r → user_id r = uid →
  records_of uid rs ≡ₚ r :: records_of uid (delete rid rs).
Proof.
  intros Hr Hu. unfold records_of.
  rewrite <- (insert_delete_id rs rid r Hr) at 1.
  rewrite map_filter_insert_True by done.
  rewrite map_to_list_insert.
  - by rewrite fmap_cons.
  - apply map_lookup_filter_None. left. apply lookup_delete_eq.
Qed.

(** C4, the claim as stated fails: the student (user 3) borrowed book 1 on
    day 0 with the 7-day period and returned it on day 10, three days late.
    The fine total of the student's fines view is 0 on day 10 and later, not
    [5 * (10 - 7) = 15]. *)
Lemma returned_late_loan_is_not_fined :
  borrow_records student_returned_late !! 1 = Some (mark_returned 10 (new_loan 3 1 0 7))
  ∧ student.fines 3 10 student_returned_late = 0
  ∧ student.fines 3 30 student_returned_late = 0
  ∧ student.fines 3 10 student_returned_late ≠ student.fine_per_day * (10 - 7).
Proof. vm_compute. repeat split; done. Qed.

(** C4, amended: the student fines view charges a loan only while it is
    unreturned.  Of the fine total of a user on day [today], a loan of the
    user that is unreturned and due before [today] makes up
    [5 * (today - due_date)], in whole days; a returned loan makes up
    nothing, whatever its return date, and so does a loan not yet past its
    due date. *)
Theorem fines_charge_unreturned_loans_only
    (s : db) (uid rid today : Z) (r : BorrowRecord) :
  borrow_records s !! rid = Some r → user_id r = uid →
  let others :=
    student.fines uid today (with_borrow_records (delete rid (borrow_records s)) s) in
  (returned r = true → student.fines uid today s = others)
  ∧ (∀ due, returned r = false → due_date r = Some due → due < today →
       student.fines uid today s = others + 5 * (today - due))
  ∧ (∀ due, returned r = false → due_date r = Some due → today <= due →
       student.fines uid today s = others).
Proof.
  intros Hr Hu others. subst others. unfold student.fines. simpl.
  rewrite (fines_loop_perm today _ _ (records_of_lookup _ _ _ _ Hr Hu)).
  rewrite fines_loop_cons. unfold student.fines_body, student.fine_per_day.
  repeat split.
  - intros ->. destruct (due_date r); simpl; lia.
  - intros due -> -> Hd. simpl. rewrite bool_decide_true by done. lia.
  - intros due -> -> Hd. simpl. rewrite bool_decide_false by lia. lia.
Qed.

(** The loan of day 0 with the 7-day period, still out on day 10, makes up
    15 of the fine total; it is the student's only loan. *)
Lemma fines_charge_unreturned_loans_only_witness :
  student.fines 3 10 student_lent
  = student.fines 3 10
      (with_borrow_records (delete 1 (borrow_records student_lent)) student_lent)
    + 5 * (10 - 7)
  ∧ student.fines 3 10 student_lent = 15.
Proof.
  assert (borrow_records student_lent !! 1 = Some (new_loan 3 1 0 7)) as Hr
    by (vm_compute; reflexivity).
  pose proof (fines_charge_unreturned_loans_only student_lent 3 1 10 _ Hr eq_refl)
    as (_ & Hlate & _).
  split.
  - apply (Hlate 7); [reflexivity|reflexivity|lia].
  - vm_compute. reflexivity.
Defined.

(** The fine total of a user never goes down as the day advances. *)
Lemma fines_loop_mono (t1 t2 : Z) (records : list BorrowRecord) :
  t1 <= t2 → student.fines_loop t1 records <= student.fines_loop t2 records.
Proof.
  intros Ht. induction records as [|r records IH]; [done|].
  rewrite !fines_loop_cons.
  assert (student.fines_body t1 0 r <= student.fines_body t2 0 r); [|lia].
  unfold student.fines_body, student.fine_per_day.
  destruct (due_date r) as [due|]; [|lia].
  destruct (returned r); simpl; [lia|].
  repeat case_bool_decide; lia.
Qed.

(** C9: for an unreturned loan past its due date and two days
    [t1 <= t2], the fine the loop of the fines view computes for the loan
    as of [t2] is at least the fine as of [t1] (they are
    [5 * (t1 - due_date)] and [5 * (t2 - due_date)]); and the fine total of
    any user as of [t2] is at least the total as of [t1]. *)
Theorem fines_monotone_in_today (r : BorrowRecord) (due t1 t2 : Z) :
  returned r = false → due_date r = Some due → due < t1 → t1 <= t2 →
  student.fines_loop t1 [r] = 5 * (t1 - due)
  ∧ student.fines_loop t2 [r] = 5 * (t2 - due)
  ∧ student.fines_loop t1 [r] <= student.fines_loop t2 [r]
  ∧ ∀ s uid, student.fines uid t1 s <= student.fines uid t2 s.
Proof.
  intros Ha Hd H1 H2.
  assert (∀ t, due < t → student.fines_loop t [r] = 5 * (t - due)) as Hf.
  { intros t Ht. unfold student.fines_loop, student.fines_body, student.fine_per_day.
    simpl. rewrite Hd, Ha. simpl. rewrite bool_decide_true by done. lia. }
  rewrite !Hf by lia. repeat split; [lia|].
  intros s uid. by apply fines_loop_mono.
Qed.

Lemma fines_monotone_in_today_witness :
  student.fines_loop 10 [new_loan 3 1 0 7] = 5 * (10 - 7)
  ∧ student.fines_loop 12 [new_loan 3 1 0 7] = 5 * (12 - 7)
  ∧ student.fines_loop 10 [new_loan 3 1 0 7] <= student.fines_loop 12 [new_loan 3 1 0 7]
  ∧ ∀ s uid, student.fines uid 10 s <= student.fines uid 12 s.
Proof.
  apply (fines_monotone_in_today (new_loan 3 1 0 7) 7 10 12);
    [reflexivity|reflexivity|lia|lia].
Defined.

(** ** The stored [fine] column *)

(** No request writes the column: a row is inserted with the default, and a
    return keeps what the row had. *)
Lemma handle_keeps_fine (q : request) (s : db) :
  fine_is_default s → fine_is_default (handle q s).2.
Proof.
  unfold fine_is_default. intros Hs.
  destruct q; simpl; unfold role_required, login_required.
  all: unfold auth.register, admin.update_recommendation_status, admin.add_book,
      admin.edit_book, admin.delete_book, admin.add_user, admin.delete_user,
      teacher.borrow_book, teacher.return_book, teacher.recommend_book,
      student.borrow_book, student.return_book, routes.recommend_book.
  all: repeat case_match; simpl; try exact Hs.
  all: apply map_Forall_insert_2; [|exact Hs]; simpl; try reflexivity.
  all: by eapply (Hs _ _).
Qed.

Lemma run_keeps_fine (qs : list request) (s : db) :
  fine_is_default s → fine_is_default (run qs s).
Proof.
  revert s. induction qs as [|q qs IH]; intros s Hs; [done|].
  apply IH. by apply handle_keeps_fine.
Qed.

Lemma records_of_fine (uid : Z) (s : db) :
  fine_is_default s →
  Forall (λ r, fine r = 0%float) (records_of uid (borrow_records s)).
Proof.
  intros Hs. unfold records_of. apply Forall_fmap, Forall_forall.
  intros [k r] Hkr%elem_of_map_to_list. simpl.
  apply map_lookup_filter_Some in Hkr as [Hkr _]. by apply (Hs k).
Qed.

(** C10: in every state the application reaches from the empty database,
    whatever the requests, every loan row has [fine = 0.0]: no handler
    writes the column after the insert.  Hence the views that add up the
    stored column report nothing owed, for every user and however overdue
    the loans are: the total of the chatbot's fine query is 0, the list of
    the routes fines view is empty, and the total of the routes chatbot is
    0. *)
Theorem stored_fine_never_written (qs : list request) :
  let s := run qs init_db in
  map_Forall (λ _ r, fine r = 0%float) (borrow_records s)
  ∧ ∀ uid,
      chatbot.check_fines uid s = 0%float
      ∧ routes.fines uid s = []
      ∧ routes.chatbot_api_fines uid s = 0%float.
Proof.
  intros s.
  assert (fine_is_default s) as Hs.
  { apply run_keeps_fine. apply map_Forall_empty. }
  split; [exact Hs|]. intros uid.
  pose proof (records_of_fine uid s Hs) as Hl.
  unfold chatbot.check_fines, routes.fines, routes.chatbot_api_fines.
  induction Hl as [|r l Hr Hl IH]; [done|].
  destruct IH as (IH1 & IH2 & IH3).
  rewrite !fmap_cons, filter_cons. simpl. rewrite Hr.
  change (chatbot.fine_or_0 0) with 0%float.
  change (PrimFloat.add 0 0) with 0%float.
  rewrite decide_False by done. done.
Qed.

(** * More of the application *)

(** ** Every request commits once or not at all *)

Lemma first_None_empty {A} (m : gmap Z A) : first m = None → m = ∅.
Proof.
  unfold first. intros H. apply map_to_list_empty_iff.
  by destruct (map_to_list m).
Qed.

Ltac failed := right; split; [discriminate|reflexivity].
Ltac committed := left; split; [reflexivity|].

Lemma role_required_commits (r : string) (cu : option Z)
    (view : Z → db → outcome * db) (s : db) :
  (∀ uid u, users s !! uid = Some u → commits_or_not s (view uid s)) →
  commits_or_not s (role_required r cu view s).
Proof.
  intros Hv. unfold role_required.
  destruct cu as [uid|]; [|failed].
  destruct (users s !! uid) as [u|] eqn:Hu; [|failed].
  destruct (decide _); [by eapply Hv|failed].
Qed.

Lemma login_required_commits (cu : option Z)
    (view : Z → db → outcome * db) (s : db) :
  (∀ uid u, users s !! uid = Some u → commits_or_not s (view uid s)) →
  commits_or_not s (login_required cu view s).
Proof.
  intros Hv. unfold login_required.
  destruct cu as [uid|]; [|failed].
  destruct (users s !! uid) as [u|] eqn:Hu; [by eapply Hv|failed].
Qed.

Lemma register_commits (u e p r h : string) (now : Z) (s : db) :
  commits_or_not s (auth.register u e p r h now s).
Proof.
  unfold auth.register.
  destruct (decide (_ ∨ _)); [failed|].
  destruct (decide (map_Exists _ _)) as [|Hfree]; [failed|].
  committed. apply commit_user. intros (i & u' & Hi & Hc).
  apply Hfree. exists i, u'. split; [exact Hi|].
  destruct Hc as [Hc|Hc]; simpl in Hc; auto.
Qed.

Lemma add_user_commits (u e r h : string) (now : Z) (s : db) :
  commits_or_not s (admin.add_user u e r h now s).
Proof.
  unfold admin.add_user.
  destruct (decide _); [failed|].
  destruct (decide _); [failed|].
  committed. by apply commit_user.
Qed.

Lemma delete_user_commits (id : Z) (s : db) :
  commits_or_not s (admin.delete_user id s).
Proof.
  unfold admin.delete_user.
  destruct (users s !! id) as [u|] eqn:Hu; [|failed].
  destruct (decide _); [failed|].
  destruct (decide _) as [|Hfree]; [failed|].
  committed. eapply commit_user_deleted; eauto.
Qed.

Lemma update_recommendation_status_commits (id : Z) (action : string) (s : db) :
  commits_or_not s (admin.update_recommendation_status id action s).
Proof.
  unfold admin.update_recommendation_status.
  destruct (book_recommendations s !! id) as [rec|] eqn:Hr; [|failed].
  destruct (decide _); [|failed].
  committed. by apply commit_recommendation_status.
Qed.

Lemma add_book_commits (form : BookForm) (s : db) :
  commits_or_not s (admin.add_book form s).
Proof.
  unfold admin.add_book.
  destruct (form_year form); [|failed].
  destruct (form_copies_total form); [|failed].
  destruct (form_rating form); [|failed].
  destruct (decide _); [failed|].
  committed. by apply commit_book.
Qed.

Lemma edit_book_commits (id : Z) (form : BookForm) (s : db) :
  commits_or_not s (admin.edit_book id form s).
Proof.
  unfold admin.edit_book.
  destruct (books s !! id) as [b|] eqn:Hb; [|failed].
  destruct (form_year form); [|failed].
  destruct (form_rating form); [|failed].
  destruct (form_copies_total form); [|failed].
  destruct (decide _); [failed|].
  committed. by eapply commit_book_edited.
Qed.

Lemma delete_book_commits (id : Z) (s : db) :
  commits_or_not s (admin.delete_book id s).
Proof.
  unfold admin.delete_book.
  destruct (books s !! id) as [b|] eqn:Hb; [|failed].
  destruct (decide _); [failed|].
  destruct (decide _); [failed|].
  committed. by eapply commit_book_deleted.
Qed.

Lemma student_borrow_book_commits (uid bid today : Z) (u : User) (s : db) :
  users s !! uid = Some u →
  commits_or_not s (student.borrow_book uid bid today s).
Proof.
  intros Hu. unfold student.borrow_book.
  destruct (books s !! bid) as [b|] eqn:Hb; [|failed].
  destruct (decide _); [failed|].
  destruct (first _) eqn:Hf; [failed|].
  committed. eapply commit_borrow; eauto using first_None_empty. lia.
Qed.

Lemma teacher_borrow_book_commits (uid bid now1 now2 : Z) (u : User) (s : db) :
  users s !! uid = Some u →
  commits_or_not s (teacher.borrow_book uid bid now1 now2 s).
Proof.
  intros Hu. unfold teacher.borrow_book.
  destruct (books s !! bid) as [b|] eqn:Hb; [|failed].
  destruct (decide _); [failed|].
  destruct (first _) eqn:Hf; [failed|].
  committed. eapply commit_borrow; eauto using first_None_empty. lia.
Qed.

Lemma student_return_book_commits (uid rid today : Z) (u : User) (s : db) :
  users s !! uid = Some u →
  commits_or_not s (student.return_book uid rid today s).
Proof.
  intros Hu. unfold student.return_book.
  destruct (borrow_records s !! rid) as [r|] eqn:Hr; [|failed].
  destruct (decide _) as [|Hown]; [failed|].
  destruct (returned r); [failed|].
  destruct (books s !! book_id r) as [b|] eqn:Hb; [|failed].
  committed. eapply commit_return; eauto.
  by destruct (decide (user_id r = uid)).
Qed.

Lemma teacher_return_book_commits (uid rid now : Z) (u : User) (s : db) :
  users s !! uid = Some u →
  commits_or_not s (teacher.return_book uid rid now s).
Proof.
  intros Hu. unfold teacher.return_book.
  destruct (borrow_records s !! rid) as [r|] eqn:Hr; [|failed].
  destruct (decide _) as [|Hown]; [failed|].
  destruct (books s !! book_id r) as [b|] eqn:Hb; [|failed].
  committed. eapply commit_return; eauto.
  by destruct (decide (user_id r = uid)).
Qed.

Lemma teacher_recommend_book_commits (uid now : Z) (t a why : string) (u : User) (s : db) :
  users s !! uid = Some u →
  commits_or_not s (teacher.recommend_book uid t a why now s).
Proof.
  intros Hu. unfold teacher.recommend_book.
  destruct (decide _); [failed|].
  committed. by eapply commit_recommendation.
Qed.

(** Every request either succeeds and commits one change, or fails and
    leaves the database as it was. *)
Lemma handle_commits (q : request) (s : db) : commits_or_not s (handle q s).
Proof.
  destruct q; simpl;
    first [ apply register_commits
          | apply role_required_commits; intros uid u Hu
          | apply login_required_commits; intros uid u Hu ];
    eauto using add_user_commits, delete_user_commits,
      update_recommendation_status_commits, add_book_commits, edit_book_commits,
      delete_book_commits, student_borrow_book_commits, teacher_borrow_book_commits,
      student_return_book_commits, teacher_return_book_commits,
      teacher_recommend_book_commits.
  unfold routes.recommend_book. committed. by eapply commit_recommendation.
Qed.

(** A property kept by every commit holds in every state the application
    reaches from the empty database. *)
Lemma run_invariant (I : db → Prop) (s : db) (qs : list request) :
  (∀ s s', I s → commit s s' → I s') → I s → I (run qs s).
Proof.
  intros Hstep. revert s. induction qs as [|q qs IH]; intros s Hs; [done|].
  simpl. apply IH.
  destruct (handle_commits q s) as [[_ Hc]|[_ ->]]; eauto.
Qed.

(** X1: A request that does not succeed leaves every table as it was: no
    handler commits part of its work. *)
Theorem failed_request_changes_nothing (q : request) (s : db) :
  (handle q s).1 ≠ Success → (handle q s).2 = s.
Proof. intros Hf. by destruct (handle_commits q s) as [[? _]|[_ ?]]. Qed.

Lemma failed_request_changes_nothing_witness :
  (handle (StudentBorrowBook (Some 3) 1 5) student_lent).1 = OutOfStock
  ∧ (handle (StudentBorrowBook (Some 3) 1 5) student_lent).2 = student_lent.
Proof.
  split; [vm_compute; reflexivity|].
  apply failed_request_changes_nothing. vm_compute. discriminate.
Defined.

(** ** Access control *)

(** X2: A request to a route behind a role decorator succeeds, or changes
    anything, only when its session belongs to a user who is in the table
    with that role. *)
Theorem change_needs_role (q : request) (s : db) (r : string) :
  required_role q = Some r →
  (handle q s).1 = Success ∨ (handle q s).2 ≠ s →
  ∃ uid u, session_user q = Some uid ∧ users s !! uid = Some u ∧ role u = r.
Proof.
  intros Hr Hc.
  destruct q; simpl in Hr; simplify_eq; simpl in *; unfold role_required in Hc.
  all: destruct current_user as [uid|]; [|by destruct Hc].
  all: destruct (users s !! uid) as [u|] eqn:Hu; [|by destruct Hc].
  all: destruct (decide _); [by eauto|by destruct Hc].
Qed.

Lemma change_needs_role_witness :
  ∃ uid u, session_user (StudentBorrowBook (Some 3) 1 0) = Some uid
           ∧ users library !! uid = Some u ∧ role u = Role.STUDENT.
Proof.
  apply (change_needs_role (StudentBorrowBook (Some 3) 1 0) library Role.STUDENT).
  - reflexivity.
  - left. vm_compute. reflexivity.
Defined.

(** ** Invariants of the loan table *)

Lemma commit_one_active_loan (s s' : db) :
  one_active_loan s → commit s s' → one_active_loan s'.
Proof.
  intros Hs Hc. destruct Hc; try exact Hs.
  - (* borrow *)
    intros i j r r' Hi Hj Hr Hr' Hu Hb. simpl in Hi, Hj.
    assert (∀ k x, borrow_records s !! k = Some x → returned x = false →
                   user_id x = uid → book_id x = bid → False) as Hnone.
    { intros k x Hk Hx Hxu Hxb.
      assert (active_loans uid bid (borrow_records s) !! k = Some x) as Hin
        by (by apply map_lookup_filter_Some).
      match goal with H : active_loans _ _ _ = ∅ |- _ => by rewrite H in Hin end. }
    apply lookup_insert_Some in Hi as [[<- <-]|[Hni Hi]];
      apply lookup_insert_Some in Hj as [[<- <-]|[Hnj Hj]]; simpl in *.
    + done.
    + exfalso. by eapply Hnone.
    + exfalso. by eapply Hnone.
    + by eapply Hs.
  - (* return *)
    intros i j r0 r' Hi Hj Hr Hr' Hu Hb. simpl in Hi, Hj.
    apply lookup_insert_Some in Hi as [[<- <-]|[Hni Hi]]; [done|].
    apply lookup_insert_Some in Hj as [[<- <-]|[Hnj Hj]]; [done|].
    by eapply Hs.
Qed.

(** X3: In every state the application reaches from the empty database, a user
    holds at most one unreturned loan on a book. *)
Theorem one_active_loan_per_user_and_book (qs : list request) :
  one_active_loan (run qs init_db).
Proof.
  apply run_invariant; [apply commit_one_active_loan|].
  intros i j r r' Hi. simpl in Hi. by rewrite lookup_empty in Hi.
Qed.

Lemma commit_loans_well_formed (s s' : db) :
  loans_well_formed s → commit s s' → loans_well_formed s'.
Proof.
  unfold loans_well_formed. intros Hs Hc. destruct Hc; try exact Hs; simpl.
  - apply map_Forall_insert_2; [|exact Hs]. simpl.
    split; [by eexists|]. split; [by eexists|].
    split; [done|]. by intros [? ?].
  - apply map_Forall_insert_2; [|exact Hs]. simpl.
    match goal with H : borrow_records s !! _ = Some _ |- _ =>
      destruct (Hs _ _ H) as (Hb & Hd & _) end.
    split; [done|]. split; [done|]. split; [by eexists|done].
Qed.

(** X4: In every state the application reaches from the empty database, every
    loan has a borrow date and a due date, and has a return date exactly
    when it is marked returned. *)
Theorem loans_keep_their_dates (qs : list request) :
  map_Forall (λ _ r, is_Some (borrow_date r) ∧ is_Some (due_date r)
                     ∧ (returned r = true ↔ is_Some (return_date r)))
    (borrow_records (run qs init_db)).
Proof.
  apply (run_invariant loans_well_formed); [apply commit_loans_well_formed|].
  apply map_Forall_empty.
Qed.

(** ** Referential integrity *)

Lemma commit_referential_integrity (s s' : db) :
  referential_integrity s → commit s s' → referential_integrity s'.
Proof.
  unfold referential_integrity. intros [Hl Hr] Hc.
  destruct Hc; simpl.
  - (* a user is added *)
    split.
    + intros k x Hk. destruct (Hl k x Hk) as [Hu Hb]. split; [|done].
      by apply lookup_insert_is_Some'; right.
    + intros k x Hk. apply lookup_insert_is_Some'. right. by apply (Hr k x).
  - (* a user is deleted *)
    split.
    + intros k x Hk. destruct (Hl k x Hk) as [Hu Hb]. split; [|done].
      rewrite lookup_delete_ne; [done|]. intros Heq.
      match goal with H : ¬ map_Exists _ (borrow_records s) |- _ => apply H end.
      by exists k, x.
    + intros k x Hk. rewrite lookup_delete_ne; [by apply (Hr k x)|]. intros Heq.
      match goal with H : ¬ map_Exists _ (book_recommendations s) |- _ => apply H end.
      by exists k, x.
  - (* a book is added *)
    split; [|done]. intros k x Hk. destruct (Hl k x Hk) as [Hu Hb].
    split; [done|]. by apply lookup_insert_is_Some'; right.
  - (* a book is edited *)
    split; [|done]. intros k x Hk. destruct (Hl k x Hk) as [Hu Hb].
    split; [done|]. by apply lookup_insert_is_Some'; right.
  - (* a book is deleted *)
    split; [|done]. intros k x Hk. destruct (Hl k x Hk) as [Hu Hb].
    split; [done|]. rewrite lookup_delete_ne; [done|]. intros Heq.
    match goal with H : ¬ map_Exists _ (borrow_records s) |- _ => apply H end.
    by exists k, x.
  - (* borrow *)
    split; [|done]. apply map_Forall_insert_2; simpl.
    + split; [by eexists|]. apply lookup_insert_is_Some'. by left.
    + intros k x Hk. destruct (Hl k x Hk) as [Hu Hb].
      split; [done|]. by apply lookup_insert_is_Some'; right.
  - (* return *)
    split; [|done].
    assert (∀ k x, borrow_records s !! k = Some x →
                   is_Some (users s !! user_id x)
                   ∧ is_Some (<[book_id r:=with_copies_available (copies_available b + 1) b]>
                                (books s) !! book_id x)) as Hkeep.
    { intros k x Hk. destruct (Hl k x Hk) as [Hu Hb].
      split; [done|]. by apply lookup_insert_is_Some'; right. }
    apply map_Forall_insert_2; [|exact Hkeep]. simpl. by eapply Hkeep.
  - (* a recommendation is added *)
    split; [done|]. apply map_Forall_insert_2; [|done]. simpl. by eexists.
  - (* a recommendation is approved or rejected *)
    split; [done|]. apply map_Forall_insert_2; [|done]. simpl. by eapply Hr.
Qed.

(** X5: In every state the application reaches from the empty database, every
    loan names a user and a book that are in their tables, and every
    recommendation names a user that is. *)
Theorem loans_never_dangle (qs : list request) :
  let s := run qs init_db in
  map_Forall (λ _ r, is_Some (users s !! user_id r) ∧ is_Some (books s !! book_id r))
    (borrow_records s)
  ∧ map_Forall (λ _ r, is_Some (users s !! rec_user_id r)) (book_recommendations s).
Proof.
  apply (run_invariant referential_integrity); [apply commit_referential_integrity|].
  split; apply map_Forall_empty.
Qed.

(** X6: A book that an unreturned loan names is still in the catalog after any
    request. *)
Theorem book_on_loan_is_not_removed
    (q : request) (s : db) (rid : Z) (r : BorrowRecord) :
  borrow_records s !! rid = Some r → returned r = false →
  is_Some (books s !! book_id r) →
  is_Some (books (handle q s).2 !! book_id r).
Proof.
  intros Hr Ha Hb.
  destruct (handle_commits q s) as [[_ Hc]|[_ ->]]; [|done].
  destruct Hc; simpl; try done.
  - by apply lookup_insert_is_Some'; right.
  - by apply lookup_insert_is_Some'; right.
  - rewrite lookup_delete_ne; [done|]. intros Heq.
    match goal with H : ¬ map_Exists _ (borrow_records s) |- _ => apply H end.
    by exists rid, r.
  - by apply lookup_insert_is_Some'; right.
  - by apply lookup_insert_is_Some'; right.
Qed.

Lemma book_on_loan_is_not_removed_witness :
  is_Some (books (handle (AdminDeleteBook (Some 1) 1) student_lent).2
             !! book_id (new_loan 3 1 0 7)).
Proof.
  assert (borrow_records student_lent !! 1 = Some (new_loan 3 1 0 7)) as Hr
    by (vm_compute; reflexivity).
  assert (is_Some (books student_lent !! book_id (new_loan 3 1 0 7))) as Hb.
  { change (book_id (new_loan 3 1 0 7)) with 1. eexists. vm_compute. reflexivity. }
  exact (book_on_loan_is_not_removed (AdminDeleteBook (Some 1) 1) student_lent 1 _
           Hr eq_refl Hb).
Defined.

(** ** Recommendations *)

Lemma commit_statuses_valid (s s' : db) :
  statuses_valid s → commit s s' → statuses_valid s'.
Proof.
  unfold statuses_valid. intros Hs Hc. destruct Hc; try exact Hs; simpl.
  - apply map_Forall_insert_2; [|exact Hs]. simpl. constructor.
  - apply map_Forall_insert_2; [|exact Hs]. simpl. by constructor.
Qed.

(** X7: In every state the application reaches from the empty database, the
    status of a recommendation is [pending], [approved] or [rejected]. *)
Theorem recommendation_status_is_one_of_three (qs : list request) :
  map_Forall (λ _ r, rec_status r ∈ ["pending"; "approved"; "rejected"])
    (book_recommendations (run qs init_db)).
Proof.
  apply (run_invariant statuses_valid); [apply commit_statuses_valid|].
  apply map_Forall_empty.
Qed.

(** ** Unique constraints *)

Lemma user_clash_sym (u u' : User) : user_clash u u' → user_clash u' u.
Proof. unfold user_clash. intros [?|?]; auto. Qed.

Lemma book_clash_sym (b b' : Book) : book_clash b b' → book_clash b' b.
Proof.
  unfold book_clash.
  intros [[Hn He]|[[Hn He]|(Hn & He & ? & ? & ? & ?)]].
  - left. split; congruence.
  - right. left. split; congruence.
  - right. left. split; congruence.
Qed.

(** A row put under a key, clashing with none of the other rows. *)
Lemma unique_insert {A} (clash : A → A → Prop) (m : gmap Z A) (k : Z) (x : A) :
  (∀ a b, clash a b → clash b a) →
  (∀ i j a b, m !! i = Some a → m !! j = Some b → clash a b → i = j) →
  ¬ map_Exists (λ _ y, clash x y) (delete k m) →
  ∀ i j a b, <[k := x]> m !! i = Some a → <[k := x]> m !! j = Some b →
             clash a b → i = j.
Proof.
  intros Hsym Hm Hfree i j a b Hi Hj Hc.
  apply lookup_insert_Some in Hi as [[<- <-]|[Hni Hi]];
    apply lookup_insert_Some in Hj as [[<- <-]|[Hnj Hj]]; [done| | |by eapply Hm].
  - exfalso. apply Hfree. exists j, b. by rewrite lookup_delete_ne.
  - exfalso. apply Hfree. exists i, a. rewrite lookup_delete_ne by done. auto.
Qed.

Lemma commit_users_unique (s s' : db) :
  users_unique s → commit s s' → users_unique s'.
Proof.
  unfold users_unique. intros Hs Hc. destruct Hc; try exact Hs; simpl.
  - apply unique_insert; [apply user_clash_sym|exact Hs|].
    by rewrite delete_id by apply next_id_fresh.
  - intros i j a b' Hi Hj. apply lookup_delete_Some in Hi as [_ Hi].
    apply lookup_delete_Some in Hj as [_ Hj]. by eapply Hs.
Qed.

(** X8: In every state the application reaches from the empty database, no two
    users share a username or an e-mail address. *)
Theorem usernames_and_emails_are_unique (qs : list request) :
  users_unique (run qs init_db).
Proof.
  apply (run_invariant users_unique); [apply commit_users_unique|].
  intros i j u u' Hi. simpl in Hi. by rewrite lookup_empty in Hi.
Qed.

Lemma commit_books_unique (s s' : db) :
  books_unique s → commit s s' → books_unique s'.
Proof.
  unfold books_unique. intros Hs Hc. destruct Hc; try exact Hs; simpl.
  - apply unique_insert; [apply book_clash_sym|exact Hs|].
    by rewrite delete_id by apply next_id_fresh.
  - by apply unique_insert; [apply book_clash_sym|exact Hs|].
  - intros i j a b' Hi Hj. apply lookup_delete_Some in Hi as [_ Hi].
    apply lookup_delete_Some in Hj as [_ Hj]. by eapply Hs.
  - (* borrow: the columns of the constraints are not touched *)
    apply unique_insert; [apply book_clash_sym|exact Hs|].
    intros (j & b' & Hj & Hc). apply lookup_delete_Some in Hj as [Hne Hj].
    apply Hne. apply (Hs bid j b b'); [assumption|exact Hj|exact Hc].
  - (* return *)
    apply unique_insert; [apply book_clash_sym|exact Hs|].
    intros (j & b' & Hj & Hc). apply lookup_delete_Some in Hj as [Hne Hj].
    apply Hne. apply (Hs (book_id r) j b b'); [assumption|exact Hj|exact Hc].
Qed.

(** X9: In every state the application reaches from the empty database, no two
    books share a title or an ISBN. *)
Theorem titles_and_isbns_are_unique (qs : list request) :
  books_unique (run qs init_db).
Proof.
  apply (run_invariant books_unique); [apply commit_books_unique|].
  intros i j b b' Hi. simpl in Hi. by rewrite lookup_empty in Hi.
Qed.

(** ** What stays *)

(** X10: An admin account stays as it is through any sequence of requests: no
    handler alters a user row, and [delete_user] turns an admin down. *)
Theorem admin_account_is_permanent (qs : list request) (s : db) (i : Z) (u : User) :
  users s !! i = Some u → role u = Role.ADMIN →
  users (run qs s) !! i = Some u.
Proof.
  intros Hu Ha.
  apply (run_invariant (λ s, users s !! i = Some u)); [|exact Hu].
  clear s Hu. intros s s' Hu Hc. destruct Hc; try exact Hu; simpl.
  - rewrite lookup_insert_ne; [done|]. intros Heq.
    rewrite <- Heq, next_id_fresh in Hu. done.
  - rewrite lookup_delete_ne; [done|]. intros Heq. congruence.
Qed.

Lemma admin_account_is_permanent_witness :
  ∃ u, users library !! 1 = Some u
       ∧ users (run [AdminDeleteUser (Some 1) 1; AdminDeleteUser (Some 1) 2] library) !! 1
         = Some u.
Proof.
  eexists. split; [vm_compute; reflexivity|].
  apply admin_account_is_permanent; [vm_compute; reflexivity|reflexivity].
Defined.

(** X11: A loan row is never removed, its user, book, borrow date, due date and
    stored fine never change, and once it is marked returned it stays
    so, through any sequence of requests. *)
Theorem loan_history_is_kept (qs : list request) (s : db) (i : Z) (r : BorrowRecord) :
  borrow_records s !! i = Some r →
  ∃ r', borrow_records (run qs s) !! i = Some r'
        ∧ user_id r' = user_id r ∧ book_id r' = book_id r
        ∧ borrow_date r' = borrow_date r ∧ due_date r' = due_date r
        ∧ fine r' = fine r
        ∧ (returned r = true → returned r' = true).
Proof.
  intros Hr.
  apply (run_invariant
           (λ s, ∃ r', borrow_records s !! i = Some r'
                       ∧ user_id r' = user_id r ∧ book_id r' = book_id r
                       ∧ borrow_date r' = borrow_date r ∧ due_date r' = due_date r
                       ∧ fine r' = fine r
                       ∧ (returned r = true → returned r' = true))).
  2: { exists r. by repeat split. }
  clear s Hr. intros s s' (r' & Hr' & Hkeep) Hc.
  destruct Hc; try (exists r'; by split); simpl.
  - exists r'. split; [|done]. rewrite lookup_insert_ne; [done|]. intros Heq.
    rewrite <- Heq, next_id_fresh in Hr'. done.
  - destruct (decide (rid = i)) as [->|Hne].
    + exists (mark_returned d r'). rewrite lookup_insert_eq.
      split; [congruence|]. simpl. by destruct Hkeep as (? & ? & ? & ? & ? & ?).
    + exists r'. by rewrite lookup_insert_ne.
Qed.

Lemma loan_history_is_kept_witness :
  ∃ r', borrow_records
          (run [StudentReturnBook (Some 3) 1 9; AdminDeleteBook (Some 1) 1;
                AdminDeleteUser (Some 1) 3] student_lent) !! 1 = Some r'
        ∧ user_id r' = user_id (new_loan 3 1 0 7)
        ∧ book_id r' = book_id (new_loan 3 1 0 7)
        ∧ borrow_date r' = borrow_date (new_loan 3 1 0 7)
        ∧ due_date r' = due_date (new_loan 3 1 0 7)
        ∧ fine r' = fine (new_loan 3 1 0 7)
        ∧ (returned (new_loan 3 1 0 7) = true → returned r' = true).
Proof.
  apply loan_history_is_kept. vm_compute. reflexivity.
Defined.

(** ** Registration *)

(** X12: A successful registration adds one user under an unused id, with the
    name and address stripped and a role that is the lower-cased form value
    when that is [admin], [teacher] or [student], and [student] otherwise.
    The form value alone decides: whoever registers with the role
    [admin] passes the admin decorator at once. *)
Theorem register_stores_a_known_role
    (u e p r h : string) (now : Z) (s s' : db) :
  auth.register u e p r h now s = (Success, s') →
  ∃ uid row,
    users s !! uid = None
    ∧ users s' = <[uid := row]> (users s)
    ∧ username row = strip u ∧ email row = strip e
    ∧ role row = (if decide (lower r ∈ [Role.ADMIN; Role.TEACHER; Role.STUDENT])
                  then lower r else Role.STUDENT)
    ∧ role row ∈ [Role.ADMIN; Role.TEACHER; Role.STUDENT]
    ∧ (lower r = Role.ADMIN →
       ∀ form, handle (AdminAddBook (Some uid) form) s' = admin.add_book form s').
Proof.
  unfold auth.register. intros H.
  destruct (decide (_ ∨ _)); [done|].
  destruct (decide (map_Exists _ _)); [done|].
  injection H as <-. eexists _, _.
  split; [apply next_id_fresh|]. split; [reflexivity|]. simpl.
  split; [done|]. split; [done|]. split; [done|]. split.
  - destruct (decide _) as [Hin|]; [exact Hin|]. do 2 constructor. constructor.
  - intros Ha form. unfold role_required. simpl. rewrite lookup_insert_eq. simpl.
    destruct (decide (lower r ∈ _)) as [Hin|Hnin].
    + by rewrite decide_True.
    + exfalso. apply Hnin. rewrite Ha. constructor.
Qed.

Lemma register_stores_a_known_role_witness :
  ∃ uid row,
    users library !! uid = None
    ∧ users (auth.register " eve " "eve@lib" "pw" "ADMIN" "h4" 3 library).2
      = <[uid := row]> (users library)
    ∧ username row = strip " eve " ∧ email row = strip "eve@lib"
    ∧ role row = (if decide (lower "ADMIN" ∈ [Role.ADMIN; Role.TEACHER; Role.STUDENT])
                  then lower "ADMIN" else Role.STUDENT)
    ∧ role row ∈ [Role.ADMIN; Role.TEACHER; Role.STUDENT]
    ∧ (lower "ADMIN" = Role.ADMIN →
       ∀ form,
         handle (AdminAddBook (Some uid) form)
           (auth.register " eve " "eve@lib" "pw" "ADMIN" "h4" 3 library).2
         = admin.add_book form
             (auth.register " eve " "eve@lib" "pw" "ADMIN" "h4" 3 library).2).
Proof.
  apply (register_stores_a_known_role " eve " "eve@lib" "pw" "ADMIN" "h4" 3 library).
  assert ((auth.register " eve " "eve@lib" "pw" "ADMIN" "h4" 3 library).1 = Success)
    as Hok by (vm_compute; reflexivity).
  destruct (auth.register " eve " "eve@lib" "pw" "ADMIN" "h4" 3 library) as [o s'].
  simpl in Hok. by rewrite Hok.
Defined.

(** X13: Once a registration has succeeded, a registration with the same
    username or the same e-mail address (after stripping) is rejected and
    changes nothing. *)
Theorem register_again_is_rejected
    (u e p r h : string) (now : Z) (s s' : db)
    (u2 e2 p2 r2 h2 : string) (now2 : Z) :
  auth.register u e p r h now s = (Success, s') →
  strip u2 = strip u ∨ strip e2 = strip e →
  auth.register u2 e2 p2 r2 h2 now2 s' = (Rejected, s').
Proof.
  unfold auth.register. intros H Hsame.
  destruct (decide (_ ∨ _)); [done|].
  destruct (decide (map_Exists _ _)); [done|].
  injection H as <-.
  destruct (decide (_ ∨ _)); [done|].
  rewrite decide_True; [done|].
  eexists _, _. split; [apply lookup_insert_eq|]. simpl.
  destruct Hsame as [->| ->]; auto.
Qed.

Lemma register_again_is_rejected_witness :
  (auth.register "sam" "sam@lib" "pw" "student" "h3" 0 init_db).1 = Success
  ∧ auth.register " sam " "other@lib" "pw2" "teacher" "h9" 5
      (auth.register "sam" "sam@lib" "pw" "student" "h3" 0 init_db).2
    = (Rejected, (auth.register "sam" "sam@lib" "pw" "student" "h3" 0 init_db).2).
Proof.
  split; [vm_compute; reflexivity|].
  apply (register_again_is_rejected "sam" "sam@lib" "pw" "student" "h3" 0 init_db).
  - assert ((auth.register "sam" "sam@lib" "pw" "student" "h3" 0 init_db).1 = Success)
      as Hok by (vm_compute; reflexivity).
    destruct (auth.register "sam" "sam@lib" "pw" "student" "h3" 0 init_db) as [o s'].
    simpl in Hok. by rewrite Hok.
  - left. vm_compute. reflexivity.
Defined.

(** ** Borrow and return together *)

(** X14: After a student's return has succeeded, any further student return of
    the same loan is turned down and changes nothing: [AlreadyReturned] for
    the owner, [Unauthorized] for anyone else. *)
Theorem student_return_book_only_once
    (uid rid d uid' d' : Z) (s s' : db) :
  student.return_book uid rid d s = (Success, s') →
  student.return_book uid' rid d' s'
  = (if decide (uid' = uid) then AlreadyReturned else Unauthorized, s').
Proof.
  unfold student.return_book at 1. intros H.
  destruct (borrow_records s !! rid) as [r|] eqn:Hr; [|done].
  destruct (decide (user_id r ≠ uid)) as [|Hown]; [done|].
  destruct (returned r) eqn:Ha; [done|].
  destruct (books s !! book_id r) as [b|]; [|done].
  injection H as <-.
  assert (user_id r = uid) as Hu by (by destruct (decide (user_id r = uid))).
  unfold student.return_book. simpl. rewrite lookup_insert_eq. simpl.
  destruct (decide (uid' = uid)) as [->|Hne].
  - by rewrite decide_False by (intros ?; congruence).
  - by rewrite decide_True by congruence.
Qed.

Lemma student_return_book_only_once_witness :
  student.return_book 3 1 12 (student.return_book 3 1 10 student_lent).2
  = (if decide (3 = 3) then AlreadyReturned else Unauthorized,
     (student.return_book 3 1 10 student_lent).2).
Proof.
  apply (student_return_book_only_once 3 1 10 3 12 student_lent).
  assert ((student.return_book 3 1 10 student_lent).1 = Success) as Hok
    by (vm_compute; reflexivity).
  destruct (student.return_book 3 1 10 student_lent) as [o s'].
  simpl in Hok. by rewrite Hok.
Defined.

Lemma with_copies_available_back (b : Book) :
  with_copies_available
    (copies_available (with_copies_available (copies_available b - 1) b) + 1)
    (with_copies_available (copies_available b - 1) b)
  = b.
Proof. destruct b. unfold with_copies_available. simpl. f_equal. lia. Qed.

(** X15: Borrowing a book and returning that loan puts the catalog back: after
    a successful borrow, the return of the new loan by the borrower
    succeeds, the [books] table is what it was before the borrow, and the
    loan table has gained the one loan, marked returned.  So it is for the
    student handlers and for the teacher handlers. *)
Theorem borrow_then_return_restores_the_catalog
    (uid bid d d2 d' : Z) (s s1 : db) :
  let rid := next_id (borrow_records s) in
  (student.borrow_book uid bid d s = (Success, s1) →
   ∃ s2, student.return_book uid rid d' s1 = (Success, s2)
         ∧ books s2 = books s
         ∧ borrow_records s2
           = <[rid := mark_returned d' (new_loan uid bid d (d + 7))]> (borrow_records s))
  ∧ (teacher.borrow_book uid bid d d2 s = (Success, s1) →
     ∃ s2, teacher.return_book uid rid d' s1 = (Success, s2)
           ∧ books s2 = books s
           ∧ borrow_records s2
             = <[rid := mark_returned d' (new_loan uid bid d (d2 + 14))]>
                 (borrow_records s)).
Proof.
  intros rid. split; intros H.
  - apply student_borrow_book_success in H as (b & Hb & Hc & Hfresh & Hrs & Hbs).
    unfold student.return_book. rewrite Hrs, Hbs. fold rid.
    rewrite lookup_insert_eq. simpl.
    rewrite decide_False by (intros ?; done).
    rewrite lookup_insert_eq. eexists. split; [reflexivity|].
    cbn [books borrow_records with_books with_borrow_records new_loan book_id].
    rewrite !insert_insert_eq, with_copies_available_back.
    split; [by apply insert_id|done].
  - apply teacher_borrow_book_success in H as (b & Hb & Hc & Hfresh & Hrs & Hbs).
    unfold teacher.return_book. rewrite Hrs, Hbs. fold rid.
    rewrite lookup_insert_eq. simpl.
    rewrite decide_False by (intros ?; done).
    rewrite lookup_insert_eq. eexists. split; [reflexivity|].
    cbn [books borrow_records with_books with_borrow_records new_loan book_id].
    rewrite !insert_insert_eq, with_copies_available_back.
    split; [by apply insert_id|done].
Qed.

Lemma borrow_then_return_restores_the_catalog_witness :
  (∃ s2, student.return_book 3 (next_id (borrow_records library)) 4
           (student.borrow_book 3 1 0 library).2 = (Success, s2)
         ∧ books s2 = books library
         ∧ borrow_records s2
           = <[next_id (borrow_records library) := mark_returned 4 (new_loan 3 1 0 (0 + 7))]>
               (borrow_records library))
  ∧ (∃ s2, teacher.return_book 2 (next_id (borrow_records library)) 4
             (teacher.borrow_book 2 1 0 0 library).2 = (Success, s2)
           ∧ books s2 = books library
           ∧ borrow_records s2
             = <[next_id (borrow_records library) := mark_returned 4 (new_loan 2 1 0 (0 + 14))]>
                 (borrow_records library)).
Proof.
  split.
  - apply (borrow_then_return_restores_the_catalog 3 1 0 0 4 library).
    assert ((student.borrow_book 3 1 0 library).1 = Success) as Hok
      by (vm_compute; reflexivity).
    destruct (student.borrow_book 3 1 0 library) as [o s']. simpl in Hok. by rewrite Hok.
  - apply (borrow_then_return_restores_the_catalog 2 1 0 0 4 library).
    assert ((teacher.borrow_book 2 1 0 0 library).1 = Success) as Hok
      by (vm_compute; reflexivity).
    destruct (teacher.borrow_book 2 1 0 0 library) as [o s']. simpl in Hok. by rewrite Hok.
Defined.

(** ** The catalog under the admin's hands *)

(** X16: A new book enters the catalog under an unused id with every copy
    available; the form's [copies_total] is taken as it is, so the catalog
    stays within bounds exactly when the number is not negative. *)
Theorem add_book_starts_full (form : BookForm) (n : Z) (s s' : db) :
  form_copies_total form = Some n →
  admin.add_book form s = (Success, s') →
  ∃ id book,
    books s !! id = None
    ∧ books s' = <[id := book]> (books s)
    ∧ copies_total book = n ∧ copies_available book = n
    ∧ (within_bounds s → (within_bounds s' ↔ 0 <= n)).
Proof.
  unfold admin.add_book. intros Hn H. rewrite Hn in H.
  destruct (form_year form); [|done]. destruct (form_rating form); [|done].
  destruct (decide _); [done|]. injection H as <-.
  eexists _, _. split; [apply next_id_fresh|]. split; [reflexivity|].
  split; [reflexivity|]. split; [reflexivity|].
  intros Hs. unfold within_bounds. simpl. split.
  - intros Hs'. specialize (Hs' _ _ (lookup_insert_eq _ _ _)). simpl in Hs'. lia.
  - intros Hpos. apply map_Forall_insert_2; [simpl; lia|exact Hs].
Qed.

Lemma add_book_starts_full_witness :
  ∃ id book,
    books init_db !! id = None
    ∧ books (admin.add_book five_copies init_db).2 = <[id := book]> (books init_db)
    ∧ copies_total book = 5 ∧ copies_available book = 5
    ∧ (within_bounds init_db
       → (within_bounds (admin.add_book five_copies init_db).2 ↔ 0 <= 5)).
Proof.
  apply (add_book_starts_full five_copies 5 init_db); [reflexivity|].
  assert ((admin.add_book five_copies init_db).1 = Success) as Hok
    by (vm_compute; reflexivity).
  destruct (admin.add_book five_copies init_db) as [o s']. simpl in Hok. by rewrite Hok.
Defined.

(** X17: [edit_book] keeps the number of copies out on loan when the new total
    covers it: from a catalog that conserves copies, a successful edit
    leads to one that does exactly when the new [copies_total] is at least
    [copies_total - copies_available]; below that, [copies_available] is
    cut off at 0. *)
Theorem edit_book_conserves_copies_iff
    (id n : Z) (form : BookForm) (b : Book) (s s' : db) :
  conserved s → books s !! id = Some b →
  form_copies_total form = Some n →
  admin.edit_book id form s = (Success, s') →
  (conserved s' ↔ copies_total b - copies_available b <= n)
  ∧ (n < copies_total b - copies_available b →
     copies_available <$> books s' !! id = Some 0).
Proof.
  unfold admin.edit_book. intros Hs Hb Hn H. rewrite Hb, Hn in H.
  destruct (form_year form); [|done]. destruct (form_rating form); [|done].
  destruct (decide _); [done|]. injection H as <-.
  pose proof (Hs id b Hb) as Hid. simpl in Hid.
  unfold conserved, active_count in *. simpl. split; [split|].
  - intros Hs'. specialize (Hs' _ _ (lookup_insert_eq _ _ _)). simpl in Hs'. lia.
  - intros Hle. apply map_Forall_insert_2; [simpl; lia|exact Hs].
  - intros Hlt. rewrite lookup_insert_eq. simpl. f_equal. lia.
Qed.

Lemma edit_book_conserves_copies_iff_witness :
  ∃ b, books student_lent !! 1 = Some b
       ∧ (conserved (admin.edit_book 1 five_copies student_lent).2
          ↔ copies_total b - copies_available b <= 5)
       ∧ (5 < copies_total b - copies_available b →
          copies_available <$> books (admin.edit_book 1 five_copies student_lent).2 !! 1
          = Some 0).
Proof.
  eexists. split; [vm_compute; reflexivity|].
  apply (edit_book_conserves_copies_iff 1 5 five_copies _ student_lent).
  - eapply map_Forall_rows; [vm_compute; reflexivity|]. repeat constructor.
  - vm_compute. reflexivity.
  - reflexivity.
  - assert ((admin.edit_book 1 five_copies student_lent).1 = Success) as Hok
      by (vm_compute; reflexivity).
    destruct (admin.edit_book 1 five_copies student_lent) as [o s'].
    simpl in Hok. by rewrite Hok.
Defined.

Lemma cover_logic_twice (upload isbn0 current : option string) :
  cover_logic upload isbn0 (cover_logic upload isbn0 current)
  = cover_logic upload isbn0 current.
Proof. by destruct upload, isbn0. Qed.

(** X18: Sending the same edit form a second time changes nothing more: the
    second [edit_book] succeeds and leaves the database of the first. *)
Theorem edit_book_twice_is_once (id : Z) (form : BookForm) (s s' : db) :
  admin.edit_book id form s = (Success, s') →
  admin.edit_book id form s' = (Success, s').
Proof.
  unfold admin.edit_book at 1. intros H.
  destruct (books s !! id) as [b|] eqn:Hb; [|done].
  destruct (form_year form) as [y|] eqn:Hy; [|done].
  destruct (form_rating form) as [g|] eqn:Hg; [|done].
  destruct (form_copies_total form) as [n|] eqn:Hn; [|done].
  destruct (decide _) as [|Hfree]; [done|]. injection H as <-.
  unfold admin.edit_book. simpl. rewrite lookup_insert_eq, Hy, Hg, Hn. simpl.
  rewrite cover_logic_twice, delete_insert_eq, insert_insert_eq.
  replace (Z.max (n - (n - Z.max (n - (copies_total b - copies_available b)) 0)) 0)
    with (Z.max (n - (copies_total b - copies_available b)) 0) by lia.
  by rewrite decide_False.
Qed.

Lemma edit_book_twice_is_once_witness :
  admin.edit_book 1 five_copies (admin.edit_book 1 five_copies student_lent).2
  = (Success, (admin.edit_book 1 five_copies student_lent).2).
Proof.
  apply (edit_book_twice_is_once 1 five_copies student_lent).
  assert ((admin.edit_book 1 five_copies student_lent).1 = Success) as Hok
    by (vm_compute; reflexivity).
  destruct (admin.edit_book 1 five_copies student_lent) as [o s'].
  simpl in Hok. by rewrite Hok.
Defined.

(** ** Lending keeps the catalog sound *)

Lemma role_required_keeps (I : db → Prop) (r : string) (cu : option Z)
    (view : Z → db → outcome * db) (s : db) :
  I s → (∀ uid, I (view uid s).2) → I (role_required r cu view s).2.
Proof.
  intros Hs Hv. unfold role_required.
  destruct cu as [uid|]; [|exact Hs].
  destruct (users s !! uid); [|exact Hs].
  destruct (decide _); [apply Hv|exact Hs].
Qed.

(** X19: From a catalog that is within bounds and conserves copies, every borrow
    request, every student return request, and every teacher return request
    on a loan not yet marked returned leads to such a catalog again,
    whatever the answer. *)
Theorem lending_requests_keep_the_catalog_sound (q : request) (s : db) :
  within_bounds s ∧ conserved s →
  guarded_lending s q →
  within_bounds (handle q s).2 ∧ conserved (handle q s).2.
Proof.
  intros Hs Hq. destruct q; simpl in Hq; try done; simpl.
  - apply (role_required_keeps (λ s, within_bounds s ∧ conserved s)); [exact Hs|].
    intros uid. by apply (guarded_lending_keeps_invariants s uid id 0 now1 now2).
  - apply (role_required_keeps (λ s, within_bounds s ∧ conserved s)); [exact Hs|].
    intros uid. destruct (borrow_records s !! record_id) as [r|] eqn:Hr.
    + simpl in Hq. destruct (returned r) eqn:Ha; [done|].
      by eapply (guarded_lending_keeps_invariants s uid record_id now 0 0).
    + unfold teacher.return_book. by rewrite Hr.
  - apply (role_required_keeps (λ s, within_bounds s ∧ conserved s)); [exact Hs|].
    intros uid. by apply (guarded_lending_keeps_invariants s uid id today 0 0).
  - apply (role_required_keeps (λ s, within_bounds s ∧ conserved s)); [exact Hs|].
    intros uid. by apply (guarded_lending_keeps_invariants s uid record_id today 0 0).
Qed.

(** The student has book 1 out and returns it: the catalog is sound before
    and after. *)
Lemma lending_requests_keep_the_catalog_sound_witness :
  within_bounds (handle (StudentReturnBook (Some 3) 1 2) student_lent).2
  ∧ conserved (handle (StudentReturnBook (Some 3) 1 2) student_lent).2.
Proof.
  apply (lending_requests_keep_the_catalog_sound (StudentReturnBook (Some 3) 1 2)
           student_lent).
  - split.
    + eapply map_Forall_rows; [vm_compute; reflexivity|].
      repeat constructor; simpl; lia.
    + eapply map_Forall_rows; [vm_compute; reflexivity|]. repeat constructor.
  - exact I.
Defined.

(** ** The student's dashboard and fines *)

Section overdue.
Variables uid today : Z.

(** What one row adds to the fine total and to the count of overdue loans. *)
Lemma fines_body_overdue (r : BorrowRecord) :
  (returned r = false ∧ due_before today r = true →
   5 <= student.fines_body today 0 r)
  ∧ (¬ (returned r = false ∧ due_before today r = true) →
     student.fines_body today 0 r = 0).
Proof.
  unfold student.fines_body, student.fine_per_day, due_before.
  destruct (due_date r) as [due|], (returned r); simpl;
    repeat case_bool_decide; split; intros Hx; try lia; try tauto.
  all: exfalso; apply Hx; auto.
Qed.

Lemma fines_and_overdue (rs : gmap Z BorrowRecord) :
  let overdue :=
    size (filter (λ kr : Z * BorrowRecord,
                    user_id kr.2 = uid ∧ returned kr.2 = false
                    ∧ due_before today kr.2 = true) rs) in
  5 * Z.of_nat overdue <= student.fines_loop today (records_of uid rs)
  ∧ (overdue = 0%nat → student.fines_loop today (records_of uid rs) = 0).
Proof.
  simpl.
  induction rs as [|i x m Hi IH] using map_ind.
  - rewrite map_filter_empty. unfold records_of. rewrite map_filter_empty.
    rewrite map_size_empty, map_to_list_empty. done.
  - destruct IH as [IH1 IH2].
    destruct (fines_body_overdue x) as [Hyes Hno].
    destruct (decide (user_id x = uid)) as [Hu|Hu].
    + assert (student.fines_loop today (records_of uid (<[i:=x]> m))
              = student.fines_body today 0 x
                + student.fines_loop today (records_of uid m)) as ->.
      { rewrite (fines_loop_perm today _ _
                   (records_of_lookup _ uid i x (lookup_insert_eq _ _ _) Hu)).
        rewrite fines_loop_cons. by rewrite delete_insert_id. }
      destruct (decide (returned x = false ∧ due_before today x = true)) as [Hd|Hd].
      * rewrite map_filter_insert_True by (simpl; tauto).
        rewrite map_size_insert_None
          by (apply map_lookup_filter_None; by left).
        specialize (Hyes Hd). split; [lia|done].
      * rewrite map_filter_insert_False by (simpl; tauto).
        rewrite delete_id by done. rewrite (Hno Hd). split; [lia|].
        intros H0. rewrite IH2 by done. done.
    + assert (records_of uid (<[i:=x]> m) = records_of uid m) as ->.
      { unfold records_of. rewrite map_filter_insert_False by done.
        by rewrite delete_id. }
      rewrite map_filter_insert_False by (simpl; tauto).
      by rewrite delete_id.
Qed.

End overdue.

(** X20: The dashboard and the fines view of a student agree: the loans counted
    as overdue are among those counted as borrowed, each overdue loan is
    fined at least 5, and the fine total is 0 exactly when no loan is
    counted as overdue. *)
Theorem dashboard_and_fines_agree (uid today : Z) (s : db) :
  let '(_, borrowed_books, overdue_books) := student.dashboard uid today s in
  (overdue_books ≤ borrowed_books)%nat
  ∧ 5 * Z.of_nat overdue_books <= student.fines uid today s
  ∧ (student.fines uid today s = 0 ↔ overdue_books = 0%nat).
Proof.
  unfold student.dashboard, student.fines. simpl.
  destruct (fines_and_overdue uid today (borrow_records s)) as [H1 H2].
  split; [|split; [exact H1|split; [lia|exact H2]]].
  apply map_subseteq_size, map_filter_subseteq_ext. simpl. tauto.
Qed.

(** ** Uploads *)

Lemma prefix_empty (t : string) : String.prefix "" t = true.
Proof. by destruct t. Qed.

Lemma contains_dot_app (stem t : string) : contains "." (stem +:+ "." +:+ t) = true.
Proof.
  induction stem as [|c stem IH].
  - change ("" +:+ "." +:+ t) with (String "." t).
    cbn [contains String.prefix]. simpl. by rewrite prefix_empty.
  - change (String c stem +:+ "." +:+ t) with (String c (stem +:+ "." +:+ t)).
    cbn [contains]. rewrite IH. apply orb_true_r.
Qed.

Lemma rsplit1_no_dot (ext : string) : contains "." ext = false → rsplit1 ext = [ext].
Proof.
  induction ext as [|c ext IH]; [done|].
  cbn [contains String.prefix]. intros H.
  apply orb_false_iff in H as [Hc He].
  cbn [rsplit1]. rewrite (IH He).
  destruct (decide (c = "."%char)) as [->|]; [|reflexivity].
  simpl in Hc. by rewrite prefix_empty in Hc.
Qed.

Lemma rsplit1_app (stem ext : string) :
  contains "." ext = false → rsplit1 (stem +:+ "." +:+ ext) = [stem; ext].
Proof.
  intros He. induction stem as [|c stem IH].
  - change ("" +:+ "." +:+ ext) with (String "." ext).
    cbn [rsplit1]. by rewrite (rsplit1_no_dot ext He).
  - change (String c stem +:+ "." +:+ ext) with (String c (stem +:+ "." +:+ ext)).
    cbn [rsplit1]. by rewrite IH.
Qed.

(** X21: [allowed_file] judges a file name by what follows its last dot, in any
    letter case: a name [stem.ext], where [ext] has no dot, is accepted
    exactly when the lower-cased [ext] is one of the allowed extensions,
    whatever [stem] is. *)
Theorem allowed_file_judges_the_last_extension (stem ext : string) :
  contains "." ext = false →
  admin.allowed_file (stem +:+ "." +:+ ext)
  = bool_decide (lower ext ∈ ALLOWED_EXTENSIONS).
Proof.
  intros He. unfold admin.allowed_file.
  by rewrite contains_dot_app, (rsplit1_app stem ext He).
Qed.

Lemma allowed_file_judges_the_last_extension_witness :
  admin.allowed_file ("shell.png" +:+ "." +:+ "exe") = false
  ∧ admin.allowed_file ("cover.v2" +:+ "." +:+ "JPG") = true.
Proof.
  split.
  - rewrite (allowed_file_judges_the_last_extension "shell.png" "exe" eq_refl).
    reflexivity.
  - rewrite (allowed_file_judges_the_last_extension "cover.v2" "JPG" eq_refl).
    reflexivity.
Defined.

(** ** The chatbot's intents *)

Section intents.
Variable hit : string → bool.

(** The table is scanned in order, so a keyword of [overdue] wins over
    every later intent. *)
Lemma first_intent_due_date :
  hit "due date" = true →
  chatbot.first_intent hit chatbot.INTENT_KEYWORDS
  ∈ Some <$> ["count_books"; "count_users"; "count_borrowed"; "my_borrowed";
              "check_fines"; "overdue"].
Proof.
  intros H. unfold chatbot.first_intent, chatbot.INTENT_KEYWORDS.
  cbn [List.find snd].
  repeat match goal with
         | |- context [if existsb hit ?l then _ else _] =>
           lazymatch l with
           | context ["due date"] =>
             replace (existsb hit l) with true
               by (cbn [existsb]; rewrite H; by rewrite ?orb_true_r)
           | _ => destruct (existsb hit l)
           end
         end.
  all: cbn [fmap option_fmap option_map list_fmap fst].
  all: repeat first [ apply list_elem_of_here | apply list_elem_of_further ].
Qed.

Lemma first_intent_my_due_date :
  chatbot.first_intent hit chatbot.INTENT_KEYWORDS = Some "my_due_date" →
  hit "return date" = true ∨ hit "when should i return" = true.
Proof.
  unfold chatbot.first_intent, chatbot.INTENT_KEYWORDS. cbn [List.find snd].
  destruct (existsb hit ["how many books"; _; _; _]); [done|].
  destruct (existsb hit ["how many users"; _; _; _]); [done|].
  destruct (existsb hit ["how many borrowed"; _; _]); [done|].
  destruct (existsb hit ["my books"; _; _; _]); [done|].
  destruct (existsb hit ["fine"; _; _; _]); [done|].
  destruct (existsb hit ["overdue"; _; _; _]) eqn:Hover; [done|].
  destruct (existsb hit ["return date"; _; _]) eqn:Hdue.
  - intros _. cbn [existsb] in Hover, Hdue.
    destruct (hit "return date"); [by left|].
    destruct (hit "when should i return"); [by right|].
    destruct (hit "due date"); [|done].
    by rewrite !orb_true_r in Hover.
  - repeat (destruct (existsb hit _); [done|]). done.
Qed.

End intents.

(** X22: A message about a due date is never answered with the user's due
    dates.  Whatever the fuzzy scorer, a text that contains [due date] is
    taken for [overdue] or an intent before it in the table; and
    [my_due_date] is detected only through its keywords [return date] and
    [when should i return], contained in the text or matched by the
    scorer. *)
Theorem due_date_keyword_is_shadowed (partial_ratio : string → string → Z) (text : string) :
  let t := strip (lower text) in
  (contains "due date" t = true →
   chatbot.detect_intent partial_ratio text
   ∈ Some <$> ["count_books"; "count_users"; "count_borrowed"; "my_borrowed";
               "check_fines"; "overdue"])
  ∧ (chatbot.detect_intent partial_ratio text = Some "my_due_date" →
     contains "return date" t = true ∨ contains "when should i return" t = true
     ∨ chatbot.FUZZY_THRESHOLD <= partial_ratio t "return date"
     ∨ chatbot.FUZZY_THRESHOLD <= partial_ratio t "when should i return").
Proof.
  intros t. unfold chatbot.detect_intent. fold t. split.
  - intros H. pose proof (first_intent_due_date (λ k, contains k t) H) as Hin.
    destruct (chatbot.first_intent (λ k, contains k t) _); [exact Hin|].
    by apply list_elem_of_fmap in Hin as (x & Hx & _).
  - destruct (chatbot.first_intent (λ k, contains k t) _) as [i|] eqn:Hd.
    { intros [= ->]. apply first_intent_my_due_date in Hd. tauto. }
    destruct (chatbot.first_intent (λ k, bool_decide _) _) as [i|] eqn:Hf.
    { intros [= ->]. apply first_intent_my_due_date in Hf.
      rewrite !bool_decide_eq_true in Hf. tauto. }
    repeat case_match; done.
Qed.

Lemma due_date_keyword_is_shadowed_witness :
  chatbot.detect_intent (λ _ _, 0) "What is my Due Date?"
  ∈ Some <$> ["count_books"; "count_users"; "count_borrowed"; "my_borrowed";
              "check_fines"; "overdue"].
Proof.
  apply (due_date_keyword_is_shadowed (λ _ _, 0) "What is my Due Date?").
  vm_compute. reflexivity.
Defined.

(** ** When lending succeeds *)

Lemma first_active_loans_None (uid bid : Z) (rs : gmap Z BorrowRecord) :
  first (active_loans uid bid rs) = None
  ↔ ¬ ∃ rid r, rs !! rid = Some r
               ∧ user_id r = uid ∧ book_id r = bid ∧ returned r = false.
Proof.
  split.
  - intros Hf (rid & r & Hr & Hu & Hb & Ha).
    destruct (active_loans_first rs uid bid rid r Hr Hu Hb Ha) as [x Hx]. congruence.
  - intros Hno. destruct (first _) as [[rid r]|] eqn:Hf; [|done].
    exfalso. apply Hno. unfold first in Hf.
    assert ((rid, r) ∈ map_to_list (active_loans uid bid rs)) as Hin.
    { destruct (map_to_list _); [done|]. injection Hf as ->. constructor. }
    apply elem_of_map_to_list, map_lookup_filter_Some in Hin as [Hr Hp].
    exists rid, r. simpl in Hp. tauto.
Qed.

(** X23: A borrow request succeeds exactly when its session belongs to a user
    of the route's role, the book exists and has a copy available, and the
    user holds no unreturned loan on it.  The same conditions for the
    student route and for the teacher route. *)
Theorem borrow_succeeds_iff (cu : option Z) (bid today now1 now2 : Z) (s : db) :
  let may_borrow (r : string) :=
    ∃ uid u b,
      cu = Some uid ∧ users s !! uid = Some u ∧ role u = r
      ∧ books s !! bid = Some b ∧ 0 < copies_available b
      ∧ ¬ ∃ rid l, borrow_records s !! rid = Some l
                   ∧ user_id l = uid ∧ book_id l = bid ∧ returned l = false in
  ((handle (StudentBorrowBook cu bid today) s).1 = Success ↔ may_borrow Role.STUDENT)
  ∧ ((handle (TeacherBorrowBook cu bid now1 now2) s).1 = Success
     ↔ may_borrow Role.TEACHER).
Proof.
  intros may_borrow. subst may_borrow. simpl.
  unfold role_required, student.borrow_book, teacher.borrow_book.
  split; split.
  1,3: destruct cu as [uid|]; [|done];
       destruct (users s !! uid) as [u|] eqn:Hu; [|done];
       destruct (decide (role u = _)) as [Hrole|]; [|done];
       destruct (books s !! bid) as [b|] eqn:Hb; [|done];
       destruct (decide (copies_available b <= 0)); [done|];
       destruct (first _) eqn:Hf; [done|];
       intros _; exists uid, u, b;
       apply first_active_loans_None in Hf;
       repeat split; auto; lia.
  all: intros (uid & u & b & -> & Hu & Hrole & Hb & Hc & Hno);
       rewrite Hu, decide_True, Hb, decide_False by (done || lia);
       apply first_active_loans_None in Hno; by rewrite Hno.
Qed.

(** X24: A return request succeeds exactly when its session belongs to a user of
    the route's role who owns the loan, and the loan's book exists; on the
    student route the loan must also be unreturned, on the teacher route it
    need not be. *)
Theorem return_succeeds_iff (cu : option Z) (rid d : Z) (s : db) :
  let may_return (r : string) (again : bool) :=
    ∃ uid u l,
      cu = Some uid ∧ users s !! uid = Some u ∧ role u = r
      ∧ borrow_records s !! rid = Some l ∧ user_id l = uid
      ∧ (returned l = false ∨ again = true)
      ∧ is_Some (books s !! book_id l) in
  ((handle (StudentReturnBook cu rid d) s).1 = Success
   ↔ may_return Role.STUDENT false)
  ∧ ((handle (TeacherReturnBook cu rid d) s).1 = Success
     ↔ may_return Role.TEACHER true).
Proof.
  intros may_return. subst may_return. simpl.
  unfold role_required, student.return_book, teacher.return_book.
  split; split.
  - destruct cu as [uid|]; [|done].
    destruct (users s !! uid) as [u|] eqn:Hu; [|done].
    destruct (decide (role u = _)) as [Hrole|]; [|done].
    destruct (borrow_records s !! rid) as [l|] eqn:Hl; [|done].
    destruct (decide (user_id l ≠ uid)) as [|Hown]; [done|].
    destruct (returned l) eqn:Ha; [done|].
    destruct (books s !! book_id l) as [b|] eqn:Hb; [|done].
    intros _. exists uid, u, l. repeat split; eauto.
    all: by destruct (decide (user_id l = uid)).
  - intros (uid & u & l & -> & Hu & Hrole & Hl & Hown & [Ha|Ha] & [b Hb]); [|done].
    rewrite Hu, decide_True, Hl, decide_False, Ha, Hb by (done || intros ?; done).
    done.
  - destruct cu as [uid|]; [|done].
    destruct (users s !! uid) as [u|] eqn:Hu; [|done].
    destruct (decide (role u = _)) as [Hrole|]; [|done].
    destruct (borrow_records s !! rid) as [l|] eqn:Hl; [|done].
    destruct (decide (user_id l ≠ uid)) as [|Hown]; [done|].
    destruct (books s !! book_id l) as [b|] eqn:Hb; [|done].
    intros _. exists uid, u, l. repeat split; eauto.
    all: by destruct (decide (user_id l = uid)).
  - intros (uid & u & l & -> & Hu & Hrole & Hl & Hown & _ & [b Hb]).
    rewrite Hu, decide_True, Hl, decide_False, Hb by (done || intros ?; done).
    done.
Qed.

(** ** Sessions *)

(** A request that adds no user leaves an id that is not in [users] out of
    it. *)
Lemma absent_user_stays_absent (q : request) (s : db) (id : Z) :
  ¬ adds_user q → users s !! id = None → users (handle q s).2 !! id = None.
Proof.
  intros Hq Hid.
  destruct q; simpl in Hq; try (by destruct Hq); simpl;
    unfold role_required, login_required.
  all: unfold admin.update_recommendation_status, admin.add_book,
      admin.edit_book, admin.delete_book, admin.delete_user,
      teacher.borrow_book, teacher.return_book, teacher.recommend_book,
      student.borrow_book, student.return_book, routes.recommend_book.
  all: repeat case_match; simpl; try exact Hid.
  apply lookup_delete_None. by right.
Qed.

(** X25: Once [delete_user] has removed a user, and for as long as no
    request adds a user (a new user may be given the freed id), a request
    that still carries the removed user's session is denied access, as an
    anonymous one is, and changes nothing. *)
Theorem deleted_user_is_locked_out
    (id : Z) (s s' : db) (qs : list request) (q : request) :
  admin.delete_user id s = (Success, s') →
  Forall (λ q, ¬ adds_user q) qs →
  session_user q = Some id →
  handle q (run qs s') = (AccessDenied, run qs s').
Proof.
  unfold admin.delete_user. intros H Hqs Hq.
  destruct (users s !! id) as [u|]; [|done].
  destruct (decide _); [done|]. destruct (decide _); [done|].
  injection H as <-.
  assert (∀ s0, users s0 !! id = None → users (run qs s0) !! id = None) as Hrun.
  { induction Hqs as [|q0 qs0 Hq0 _ IH]; intros s0 Hs0; [done|].
    simpl. apply IH. by apply absent_user_stays_absent. }
  assert (users (run qs (with_users (delete id (users s)) s)) !! id = None) as Hgone.
  { apply Hrun. simpl. apply lookup_delete_eq. }
  destruct q; simpl in Hq; simplify_eq; simpl;
    unfold role_required, login_required; by rewrite Hgone.
Qed.

Lemma deleted_user_is_locked_out_witness :
  handle (TeacherBorrowBook (Some 2) 1 0 0)
    (run [ StudentBorrowBook (Some 3) 1 0; AdminDeleteUser (Some 1) 3 ]
       (admin.delete_user 2 library).2)
  = (AccessDenied,
     run [ StudentBorrowBook (Some 3) 1 0; AdminDeleteUser (Some 1) 3 ]
       (admin.delete_user 2 library).2).
Proof.
  apply (deleted_user_is_locked_out 2 library).
  - assert ((admin.delete_user 2 library).1 = Success) as Hok
      by (vm_compute; reflexivity).
    destruct (admin.delete_user 2 library) as [o s']. simpl in Hok. by rewrite Hok.
  - repeat constructor; intros Hx; exact Hx.
  - reflexivity.
Defined.

(** ** The last copy *)


